(** * Telemetry export of thingsboard-scripts: model and properties

    Shallow embedding of [export/telemetry.py] (the windowed telemetry
    export) and of [export/get_attribute.py] (the single-entity lookup and
    the enrichment script around it).

    Conventions of the model
    - a [datetime] is its wall-clock reading in microseconds since
      0001-01-01T00:00:00 together with its UTC offset when it is aware
      (a fixed offset: [fromisoformat] builds no other time zones);
      arithmetic checks Python's range (years 1 to 9999) and comparison
      refuses to mix naive and aware values, as Python does;
    - a data frame is its column index and its rows as dictionaries; the
      cells are kept as the records hold them, so the conversion pandas
      applies to a column with gaps (integers become floats) is not
      modelled, and no property below speaks of the cells of such a column;
    - a Python [dict] is an association list in insertion order with
      pairwise distinct keys ([dict_set] keeps them so);
    - the ThingsBoard REST client is an explicit record of functions
      (the external collaborator), and so are the library functions whose
      result depends on calendar, float or file-format details;
    - the script's side effects (files written, log lines) are threaded
      through an explicit [RunState]. *)

From Stdlib Require Import ZArith Lia Ascii String DecimalString.
From stdpp Require Import base option list sets strings sorting.

Set Warnings "-clear-no-such-hyp".

Open Scope Z_scope.

(** ** Python values, dictionaries and strings *)

Module Py.

(** JSON scalars as they occur in telemetry and attribute values. *)
Inductive pyval := PInt (z : Z) | PStr (s : string).

#[export] Instance pyval_eq_dec : EqDecision pyval.
Proof. solve_decision. Defined.

(** Exceptions the scripts can end with. *)
Inductive exn :=
  | ValueError (msg : string)
  | KeyError (key : string)
  | NameError (name : string)
  | TypeError (msg : string)
  | IndexError (msg : string)
  | OverflowError (msg : string)
  | InvalidIndexError (msg : string)
  | OtherError (name msg : string).

(** Outcome of a computation: a value, a raised exception, or a loop that
    was given too little fuel. *)
Inductive result (A : Type) :=
  | Ok (a : A)
  | Raise (e : exn)
  | OutOfFuel.
Arguments Ok {A} a.
Arguments Raise {A} e.
Arguments OutOfFuel {A}.

Definition bind {A B} (r : result A) (k : A -> result B) : result B :=
  match r with
  | Ok a => k a
  | Raise e => Raise e
  | OutOfFuel => OutOfFuel
  end.

Definition or_raise {A} (e : exn) (o : option A) : result A :=
  match o with Some a => Ok a | None => Raise e end.

Definition or_out_of_fuel {A} (o : option A) : result A :=
  match o with Some a => Ok a | None => OutOfFuel end.

(** A [dict]: association list in insertion order. *)
Section Dict.
Context {K V : Type} `{EqDecision K}.

Fixpoint dict_get (k : K) (d : list (K * V)) : option V :=
  match d with
  | [] => None
  | (k', v) :: d' => if decide (k' = k) then Some v else dict_get k d'
  end.

(** [d[k] = v]: an existing key keeps its position, a new key goes last. *)
Fixpoint dict_set (k : K) (v : V) (d : list (K * V)) : list (K * V) :=
  match d with
  | [] => [(k, v)]
  | (k', v') :: d' =>
      if decide (k' = k) then (k', v) :: d' else (k', v') :: dict_set k v d'
  end.

Definition dict_keys (d : list (K * V)) : list K := d.*1.
Definition dict_values (d : list (K * V)) : list V := d.*2.

(** [d.setdefault(k, dflt)]: the value bound to [k], after binding [k] to
    [dflt] when it was unbound. *)
Definition setdefault (k : K) (dflt : V) (d : list (K * V))
    : V * list (K * V) :=
  match dict_get k d with
  | Some v => (v, d)
  | None => (dflt, d ++ [(k, dflt)])
  end.
End Dict.

(** [sep.join(l)] *)
Fixpoint join (sep : string) (l : list string) : string :=
  match l with
  | [] => ""
  | [s] => s
  | s :: l' => s +:+ sep +:+ join sep l'
  end.

(** [s.split(sep)] for a one-character separator. *)
Fixpoint split (sep : ascii) (s : string) : list string :=
  match s with
  | EmptyString => [EmptyString]
  | String c s' =>
      if decide (c = sep) then EmptyString :: split sep s'
      else match split sep s' with
           | [] => [String c EmptyString]
           | w :: ws => String c w :: ws
           end
  end.

(** [str(n)] of a natural number. *)
Definition str_of_nat (n : nat) : string := NilEmpty.string_of_uint (Nat.to_uint n).

End Py.

Import Py.

#[export] Instance result_bind : MBind result := fun A B k r => bind r k.
#[export] Instance result_ret : MRet result := fun A a => Ok a.

(** ** Time Window Planner *)

Module Planner.

(** A [datetime]: the wall-clock reading and, for an aware value, the UTC
    offset, both in microseconds. *)
Record datetime := mkDatetime { wall : Z; utcoffset : option Z }.

#[export] Instance datetime_eq_dec : EqDecision datetime.
Proof. solve_decision. Defined.

Definition timedelta := Z.

(** [datetime.min] and [datetime.max] as wall-clock readings:
    0001-01-01T00:00:00 and 9999-12-31T23:59:59.999999. *)
Definition min_wall : Z := 0.
Definition max_wall : Z := 3652059 * 86400 * 1000000 - 1.

(** Python's datetimes lie within the years 1 to 9999. *)
Definition valid_datetime (dt : datetime) : Prop :=
  min_wall <= wall dt <= max_wall.

(** The point in time a datetime denotes (a naive one read as it stands). *)
Definition instant (dt : datetime) : Z := wall dt - default 0 (utcoffset dt).

(** [a < b]: naive with naive by the wall clock, aware with aware by the
    instant; a naive and an aware value do not compare. *)
Definition dt_lt (a b : datetime) : result bool :=
  match utcoffset a, utcoffset b with
  | None, None => Ok (wall a <? wall b)
  | Some oa, Some ob => Ok (wall a - oa <? wall b - ob)
  | _, _ =>
      Raise (TypeError "can't compare offset-naive and offset-aware datetimes")
  end.

(** [a + d]: the wall clock moves by [d], the offset stays; a result
    outside the years 1 to 9999 is an [OverflowError]. *)
Definition dt_add (a : datetime) (d : timedelta) : result datetime :=
  if (min_wall <=? wall a + d) && (wall a + d <=? max_wall)
  then Ok (mkDatetime (wall a + d) (utcoffset a))
  else Raise (OverflowError "date value out of range").

(** [min(a, b)]: [b] only when it is strictly smaller. *)
Definition dt_min (a b : datetime) : result datetime :=
  lt ← dt_lt b a;
  Ok (if lt : bool then b else a).

(** [batch_window = timedelta(hours=24)] *)
Definition batch_window : timedelta := 24 * 3600 * 1000000.

(** A batch is the half-open window [[b_start, b_end)]. *)
Record Batch := mkBatch { b_start : datetime; b_end : datetime }.

Definition b_duration (b : Batch) : timedelta :=
  instant (b_end b) - instant (b_start b).

Definition in_batch (t : Z) (b : Batch) : Prop :=
  instant (b_start b) <= t < instant (b_end b).

(** The loop of lines 187-220,
    [while dt_current < dt_end: ...; dt_current += batch_window],
    with a loop body [body] that receives the window
    [(dt_current, min(dt_current + batch_window, dt_end))] and updates the
    loop state or raises.  [OutOfFuel] means that [fuel] iterations did not
    reach the exit of the loop. *)
Fixpoint batch_loop {S : Type} (fuel : nat) (body : Batch -> S -> result S)
    (D : timedelta) (dt_current dt_end : datetime) (s : S) : result S :=
  lt ← dt_lt dt_current dt_end;
  if lt : bool then
    match fuel with
    | O => OutOfFuel
    | S fuel' =>
        next ← dt_add dt_current D;
        te ← dt_min next dt_end;
        s' ← body (mkBatch dt_current te) s;
        dt_current' ← dt_add dt_current D;
        batch_loop fuel' body D dt_current' dt_end s'
    end
  else Ok s.

(** The windows the loop visits, in order: the loop run with the body that
    records its window. *)
Definition plan (fuel : nat) (D : timedelta) (dt_start dt_end : datetime)
    : result (list Batch) :=
  batch_loop fuel (fun w visited => Ok (visited ++ [w])) D dt_start dt_end [].

(** A loop body applied to a list of windows in order. *)
Fixpoint run_body {S : Type} (body : Batch -> S -> result S)
    (bs : list Batch) (s : S) : result S :=
  match bs with
  | [] => Ok s
  | w :: bs' => s' ← body w s; run_body body bs' s'
  end.

(** Ceiling of [a / d] for [0 < d]. *)
Definition ceil_div (a d : Z) : Z := (a + d - 1) / d.

(** Number of windows of the range. *)
Definition batch_count (D : timedelta) (T0 T1 : datetime) : nat :=
  Z.to_nat (ceil_div (instant T1 - instant T0) D).

(** The start of the range moved by [d]. *)
Definition shifted (T0 : datetime) (d : Z) : datetime :=
  mkDatetime (wall T0 + d) (utcoffset T0).

(** Closed form of the [i]-th window. *)
Definition nth_batch (D : timedelta) (T0 T1 : datetime) (i : nat) : Batch :=
  mkBatch (shifted T0 (Z.of_nat i * D))
    (if instant T1 <? instant T0 + (Z.of_nat i * D + D) then T1
     else shifted T0 (Z.of_nat i * D + D)).

Definition batches (D : timedelta) (T0 T1 : datetime) : list Batch :=
  nth_batch D T0 T1 <$> seq 0 (batch_count D T0 T1).

(** Both naive or both aware. *)
Definition same_kind (a b : datetime) : Prop :=
  is_Some (utcoffset a) <-> is_Some (utcoffset b).

(** The range can be walked in steps of [D] without leaving the years 1
    to 9999: the start is a datetime, and so is the start moved by the whole
    number of steps. *)
Definition walkable (D : timedelta) (T0 T1 : datetime) : Prop :=
  min_wall <= wall T0
  /\ wall T0 + Z.of_nat (batch_count D T0 T1) * D <= max_wall.

(** Consecutive windows touch: the end of one is the start of the next. *)
Definition contiguous (bs : list Batch) : Prop :=
  forall i b b', bs !! i = Some b -> bs !! S i = Some b' ->
    instant (b_end b) = instant (b_start b').

(** Windows at different positions do not overlap. *)
Definition non_overlapping (bs : list Batch) : Prop :=
  forall i j b b', (i < j)%nat -> bs !! i = Some b -> bs !! j = Some b' ->
    instant (b_end b) <= instant (b_start b').

(** The windows cover exactly [[T0, T1)]. *)
Definition covers (bs : list Batch) (T0 T1 : datetime) : Prop :=
  forall t, instant T0 <= t < instant T1 <-> exists b, b ∈ bs /\ in_batch t b.

End Planner.

Import Planner.

(** ** Sample Merger *)

Module Merger.

(** One element [{"ts": ..., "value": ...}] of a time-series response. *)
Record Sample := mkSample { s_ts : Z; s_value : pyval }.

(** A telemetry response [{"key": [{"ts": .., "value": ..}, ...], ...}]. *)
Abbreviation Response := (list (string * list Sample)).

(** A row [{"ts": ts, key: value, ...}]. *)
Abbreviation Row := (list (string * pyval)).

(** The per-batch mapping [records: dict[int, dict[str, Any]]]. *)
Abbreviation Records := (list (Z * Row)).

(** Body of the inner loop:
    [row = records.setdefault(ts, {"ts": ts}); row[key] = value].
    The row returned by [setdefault] is the object stored in [records], so
    the assignment to [row[key]] is an update of the entry of [ts]. *)
Definition add_sample (key : string) (records : Records) (sample : Sample)
    : Records :=
  let ts := s_ts sample in
  let value := s_value sample in
  let '(row, records1) := setdefault ts [("ts"%string, PInt ts)] records in
  dict_set ts (dict_set key value row) records1.

(** [for sample in samples: ...] *)
Definition add_samples (key : string) (records : Records) (samples : list Sample)
    : Records :=
  fold_left (add_sample key) samples records.

(** [for key, samples in res.items(): ...] *)
Definition merge_from (res : Response) (records : Records) : Records :=
  fold_left (fun records '(key, samples) => add_samples key records samples)
    res records.

(** [records = {}; for key, samples in res.items(): ...] *)
Definition merge (res : Response) : Records := merge_from res [].

(** Value of the last sample of [samples] stamped [t], if any. *)
Fixpoint last_at (t : Z) (samples : list Sample) : option pyval :=
  match samples with
  | [] => None
  | s :: samples' =>
      match last_at t samples' with
      | Some v => Some v
      | None => if decide (s_ts s = t) then Some (s_value s) else None
      end
  end.

(** The cell of key [k] in the record of timestamp [t]. *)
Definition row_cell (records : Records) (t : Z) (k : string) : option pyval :=
  dict_get t records ≫= dict_get k.

(** The record of a sample that shares its timestamp with no other. *)
Definition single_row (key : string) (s : Sample) : Z * Row :=
  (s_ts s, [("ts"%string, PInt (s_ts s)); (key, s_value s)]).

(** Number of records a mapping holds for the timestamp [t]. *)
Definition records_at (t : Z) (records : Records) : nat :=
  length (filter (fun e => e.1 = t) records).

(** Every record of the mapping holds its own timestamp in its [ts] cell. *)
Definition stamped (records : Records) : Prop :=
  forall t row, dict_get t records = Some row ->
    dict_get "ts"%string row = Some (PInt t).

(** All timestamps of a response, key by key, in the order listed. *)
Definition all_timestamps (res : Response) : list Z :=
  mjoin ((fun e => s_ts <$> e.2) <$> res).

(** A per-batch mapping as the merger builds it from a response without a
    key named [ts]: one entry per timestamp, every record a dictionary that
    holds its own timestamp, an integer, in its [ts] cell. *)
Definition timestamped (records : Records) : Prop :=
  NoDup (dict_keys records)
  /\ Forall (fun e => NoDup (dict_keys e.2)
                      /\ dict_get "ts"%string e.2 = Some (PInt e.1)) records.

(** The telemetry keys of a row: its keys other than the timestamp. *)
Definition telemetry_keys_of (r : Row) : list string :=
  filter (fun k => k ≠ "ts"%string) (dict_keys r).

End Merger.

Import Merger.

(** ** Data frames (the part of pandas the exporter uses) *)

Module Frame.

(** A frame is its column index and its rows; a cell that a row does not
    bind is a missing value (NaN). *)
Record DataFrame := mkDataFrame { columns : list string; rows : list Row }.

(** Union of two column indexes, keeping the order of first appearance. *)
Definition index_union (l k : list string) : list string :=
  l ++ list_difference k l.

(** [pd.DataFrame(columns=cols)] *)
Definition new_frame (cols : list string) : DataFrame := mkDataFrame cols [].

(** [pd.DataFrame.from_records(list_of_dicts)]: the columns are the keys
    in the order of their first appearance. *)
Definition from_records (rs : list Row) : DataFrame :=
  mkDataFrame (fold_left (fun cols r => index_union cols (dict_keys r)) rs []) rs.

(** [pd.concat([df1, df2], ignore_index=True)] *)
Definition concat (df1 df2 : DataFrame) : DataFrame :=
  mkDataFrame (index_union (columns df1) (columns df2)) (rows df1 ++ rows df2).

(** [len(df)] *)
Definition len (df : DataFrame) : nat := length (rows df).

(** The cell of column [col] when it holds an integer, and when it holds a
    string. *)
Definition int_cell (col : string) (r : Row) : option Z :=
  match dict_get col r with
  | Some (PInt z) => Some z
  | _ => None
  end.

Definition str_cell (col : string) (r : Row) : option string :=
  match dict_get col r with
  | Some (PStr s) => Some s
  | _ => None
  end.

Definition sort_key (col : string) (r : Row) : Z := default 0 (int_cell col r).

Definition row_le (col : string) (r1 r2 : Row) : Prop :=
  sort_key col r1 <= sort_key col r2.

#[export] Instance row_le_dec col : RelDecision (row_le col).
Proof. intros r1 r2. unfold row_le. apply _. Defined.

Definition str_key (col : string) (r : Row) : string :=
  default ""%string (str_cell col r).

Definition row_str_le (col : string) (r1 r2 : Row) : Prop :=
  String.le (str_key col r1) (str_key col r2).

#[export] Instance row_str_le_dec col : RelDecision (row_str_le col).
Proof. intros r1 r2. unfold row_str_le. apply _. Defined.

Definition has_cell (col : string) (r : Row) : Prop := is_Some (dict_get col r).

(** [df.sort_values(col)], ascending.  The label must name exactly one
    column.  The rows whose cell is missing go last, in their order; the
    others are ordered by their cells, integers by value and strings by code
    points, and integers do not compare with strings (the text of that
    [TypeError] names the two types in the order the sort met them, which is
    not modelled).  pandas guarantees the order of the keys, not the
    relative order of rows with equal keys; the model keeps them in their
    order. *)
Definition sort_rows (col : string) (rs : list Row) : result (list Row) :=
  let present := filter (has_cell col) rs in
  let missing := filter (fun r => ~ has_cell col r) rs in
  if forallb (fun r => bool_decide (is_Some (int_cell col r))) present
  then Ok (merge_sort (row_le col) present ++ missing)
  else if forallb (fun r => bool_decide (is_Some (str_cell col r))) present
  then Ok (merge_sort (row_str_le col) present ++ missing)
  else Raise (TypeError "'<' not supported between instances").

Definition sort_values (col : string) (df : DataFrame) : result DataFrame :=
  match length (filter (fun c => c = col) (columns df)) with
  | O => Raise (KeyError col)
  | 1%nat => rs ← sort_rows col (rows df); Ok (mkDataFrame (columns df) rs)
  | _ => Raise (ValueError ("The column label '" +:+ col +:+ "' is not unique."))
  end.

(** When [pd.concat([df1, df2])] fails: the frames are aligned on the union
    of their columns, and a frame whose column names repeat cannot be
    aligned unless both frames have the very same columns. *)
Definition concat_error (df1 df2 : DataFrame) : option exn :=
  if decide (columns df1 = columns df2
             \/ (NoDup (columns df1) /\ NoDup (columns df2)))
  then None
  else Some (InvalidIndexError
               "Reindexing only valid with uniquely valued Index objects").

(** The step "append to dataframe" of the batch loop (lines 214-217):
    [if len(records) > 0: df = pd.concat([df, from_records(values)])]. *)
Definition append_records (df : DataFrame) (records : Records) : DataFrame :=
  if decide (0 < length records)%nat
  then concat df (from_records (dict_values records))
  else df.

(** The same step with its failure: it raises what [pd.concat] raises and
    yields [append_records] otherwise. *)
Definition append_step (df : DataFrame) (records : Records) : result DataFrame :=
  match (if decide (0 < length records)%nat
         then concat_error df (from_records (dict_values records))
         else None) with
  | Some e => Raise e
  | None => Ok (append_records df records)
  end.

(** The table after the per-batch mappings of successive batches were
    appended to [df]. *)
Definition accumulate (df : DataFrame) (batch_records : list Records)
    : DataFrame :=
  fold_left append_records batch_records df.


(** The append step of every batch in turn, with its failure (lines
    214-217 for every batch) ... *)
Fixpoint accumulate_steps (df : DataFrame) (batch_records : list Records)
    : result DataFrame :=
  match batch_records with
  | [] => Ok df
  | records :: rest => df' ← append_step df records; accumulate_steps df' rest
  end.

(** ... and then the final sort (line 226). *)
Definition sorted_table (cols : list string) (batch_records : list Records)
    : result DataFrame :=
  df ← accumulate_steps (new_frame cols) batch_records;
  sort_values "ts" df.

(** The timestamps under which the batches hold their records. *)
Definition record_timestamps (batch_records : list Records) : list Z :=
  mjoin (dict_keys <$> batch_records).

(** The column [col] as a list of integers. *)
Definition int_column (col : string) (df : DataFrame) : list Z :=
  sort_key col <$> rows df.

End Frame.

Import Frame.

(** ** Telemetry Exporter ([export/telemetry.py]) *)

Module Exporter.

(** [device_limit], [points_limit] *)
Definition device_limit : nat := 1000.
Definition points_limit : Z := 1000.

(** The entity query built by [device_query]. *)
Record DeviceQuery := mkDeviceQuery
  { deviceType : string; pageSize : nat; page : nat }.

Definition device_query (profile_name : string) : DeviceQuery :=
  mkDeviceQuery profile_name device_limit 0.

(** One element [{"key": ..., "value": ...}] of an attribute response. *)
Record Attribute := mkAttribute { a_key : string; a_value : pyval }.

(** The calls of the REST client the script makes.  A device is named by
    its id; key lists travel comma-joined, as in the source. *)
Record RestClient := mkRestClient {
  (** ids of [res.data] of [find_entity_data_by_query_using_post] *)
  find_entity_data_by_query : DeviceQuery -> list string;
  get_attribute_keys : string -> list string;
  get_attributes : string -> string -> list Attribute;
  (** [get_timeseries_keys_using_get1] *)
  get_timeseries_keys : string -> list string;
  (** [get_timeseries_using_get(entity_id, keys, start_ts, end_ts, limit)] *)
  get_timeseries : string -> string -> Z -> Z -> Z -> Response
}.

(** The library functions that are parameters of the model, because their
    result rests on calendar arithmetic, on floating point, on the local time
    zone or on the file format. *)
Record Library := mkLibrary {
  (** [datetime.fromisoformat(s)], [None] when it raises ... *)
  fromisoformat : string -> option datetime;
  (** ... and the exception it then raises (a [ValueError] whose text
      quotes the argument or names the field out of range) *)
  fromisoformat_error : string -> exn;
  (** [str(dt.date())] *)
  date_str : datetime -> string;
  (** [int(dt.timestamp() * 1000)]: the milliseconds since the epoch as
      they come out of the float product (the conversion is taken to
      succeed; for a naive datetime it goes through the local time zone of
      the platform) *)
  timestamp_ms : datetime -> Z;
  (** the exception of [df.to_parquet] for a frame the engine cannot
      convert (a column of mixed types), [None] when it writes the file *)
  to_parquet_error : DataFrame -> option exn
}.

Inductive OutputFormat := Csv | Parquet.

Definition format_name (f : OutputFormat) : string :=
  match f with Csv => "csv" | Parquet => "parquet" end.

(** The parsed command line. *)
Record Args := mkArgs {
  host : string;
  output_format : OutputFormat;
  device_profile : string;
  start_time : string;
  end_time : string;
  keys : option string
}.

Record TelemetryMeta := mkTelemetryMeta {
  tm_keys : list string;
  tm_exported_keys : list string;
  tm_file : option string;
  tm_size : option nat
}.

Record DeviceMeta := mkDeviceMeta {
  device_id : string;
  attributes : list (string * pyval);
  telemetry : TelemetryMeta
}.

(** Log lines of level INFO and above (those written whether or not
    [--verbose] is given). *)
Inductive Level := INFO | WARNING.

Inductive FileContent :=
  | TableFile (fmt : OutputFormat) (df : DataFrame)
  | MetadataFile (metas : list DeviceMeta).

(** What a run has done so far, and the script variables that outlive an
    iteration of the device loop ([None]: not yet bound). *)
Record RunState := mkRunState {
  st_files : list (string * FileContent);
  st_log : list (Level * string);
  st_all_meta : list DeviceMeta;
  st_meta : option DeviceMeta;
  st_dt_start : option datetime;
  st_dt_end : option datetime
}.

(** The key filter of lines 175-180:
    [if args.keys: telemetry_keys = [key for key in telemetry_keys
                                     if key in args.keys.split(",")]] *)
Definition select_keys (keys_arg : option string) (telemetry_keys : list string)
    : list string :=
  match keys_arg with
  | None => telemetry_keys
  | Some ks =>
      if decide (ks = ""%string) then telemetry_keys
      else filter (fun key => key ∈ split ","%char ks) telemetry_keys
  end.

(** [{a["key"]: a["value"] for a in res}] *)
Definition attributes_of (res : list Attribute) : list (string * pyval) :=
  fold_left (fun d a => dict_set (a_key a) (a_value a) d) res [].

(** First half of the body of the [while] loop for one window: fetch the
    samples and merge them into [records] (lines 189-212). *)
Definition fetch_records (lib : Library) (tb : RestClient) (device : string)
    (telemetry_keys : list string) (w : Batch) : Records :=
  let ts := timestamp_ms lib (b_start w) in
  let te := timestamp_ms lib (b_end w) in
  let res := get_timeseries tb device (join "," telemetry_keys) ts te points_limit in
  merge res.

(** Body of the [while] loop for one window: fetch, merge, append. *)
Definition export_batch (lib : Library) (tb : RestClient) (device : string)
    (telemetry_keys : list string) (w : Batch) (df : DataFrame)
    : result DataFrame :=
  append_step df (fetch_records lib tb device telemetry_keys w).

Definition output_file_name (lib : Library) (args : Args)
    (dt_start dt_end : datetime) (device : string) : string :=
  date_str lib dt_start +:+ "_" +:+ date_str lib dt_end +:+ "_" +:+ device
  +:+ "." +:+ format_name (output_format args).

Definition meta_file_name (lib : Library) (dt_start dt_end : datetime)
    : string :=
  date_str lib dt_start +:+ "_" +:+ date_str lib dt_end +:+ "_metadata.json".

(** The table of one device: the frame after the [while] loop (lines
    182-220). *)
Definition device_table (fuel : nat) (lib : Library) (tb : RestClient)
    (device : string) (telemetry_keys : list string)
    (dt_start dt_end : datetime) : result DataFrame :=
  batch_loop fuel (export_batch lib tb device telemetry_keys) batch_window
    dt_start dt_end (new_frame ("ts"%string :: telemetry_keys)).

(** [df.to_csv(output_file)] or [df.to_parquet(output_file)] (lines
    233-236); the file system is taken to accept the write. *)
Definition write_table (lib : Library) (fmt : OutputFormat) (df : DataFrame)
    : result unit :=
  match fmt with
  | Csv => Ok tt
  | Parquet =>
      match to_parquet_error lib df with
      | Some e => Raise e
      | None => Ok tt
      end
  end.

(** One iteration of [for device_id in device_ids] (lines 150-239). *)
Definition process_device (fuel : nat) (lib : Library) (tb : RestClient)
    (args : Args) (st : RunState) (device : string) : result RunState :=
  let attribute_keys := get_attribute_keys tb device in
  let res := get_attributes tb device (join "," attribute_keys) in
  let attrs := attributes_of res in
  let all_keys := get_timeseries_keys tb device in
  let telemetry_keys := select_keys (keys args) all_keys in
  dt_start ← or_raise (fromisoformat_error lib (start_time args))
               (fromisoformat lib (start_time args));
  dt_end ← or_raise (fromisoformat_error lib (end_time args))
             (fromisoformat lib (end_time args));
  df ← device_table fuel lib tb device telemetry_keys dt_start dt_end;
  if decide (len df = 0%nat) then
    Ok (mkRunState (st_files st)
          (st_log st ++ [(WARNING, "No telemetry data for device " +:+ device)])
          (st_all_meta st)
          (Some (mkDeviceMeta device attrs
                   (mkTelemetryMeta all_keys telemetry_keys None None)))
          (Some dt_start) (Some dt_end))
  else
    df ← sort_values "ts" df;
    let output_file := output_file_name lib args dt_start dt_end device in
    _ ← write_table lib (output_format args) df;
    Ok (mkRunState
          (st_files st ++ [(output_file, TableFile (output_format args) df)])
          (st_log st ++ [(INFO, "Saved telemetry data for device " +:+ device
                                 +:+ " to " +:+ output_file)])
          (st_all_meta st)
          (Some (mkDeviceMeta device attrs
                   (mkTelemetryMeta all_keys telemetry_keys
                      (Some output_file) (Some (len df)))))
          (Some dt_start) (Some dt_end)).

(** What one iteration of the device loop leaves behind when the table is
    empty, and when it is not. *)
Definition skipped_state (tb : RestClient) (args : Args) (st : RunState)
    (device : string)
    (T0 T1 : datetime) : RunState :=
  mkRunState (st_files st)
    (st_log st ++ [(WARNING, "No telemetry data for device " +:+ device)])
    (st_all_meta st)
    (Some (mkDeviceMeta device
             (attributes_of (get_attributes tb device
                               (join "," (get_attribute_keys tb device))))
             (mkTelemetryMeta (get_timeseries_keys tb device)
                (select_keys (keys args) (get_timeseries_keys tb device))
                None None)))
    (Some T0) (Some T1).

Definition saved_state (lib : Library) (tb : RestClient) (args : Args)
    (st : RunState) (device : string)
    (T0 T1 : datetime) (df : DataFrame) : RunState :=
  let output_file := output_file_name lib args T0 T1 device in
  mkRunState
    (st_files st ++ [(output_file, TableFile (output_format args) df)])
    (st_log st ++ [(INFO, "Saved telemetry data for device " +:+ device
                           +:+ " to " +:+ output_file)])
    (st_all_meta st)
    (Some (mkDeviceMeta device
             (attributes_of (get_attributes tb device
                               (join "," (get_attribute_keys tb device))))
             (mkTelemetryMeta (get_timeseries_keys tb device)
                (select_keys (keys args) (get_timeseries_keys tb device))
                (Some output_file) (Some (len df)))))
    (Some T0) (Some T1).

(** [for device_id in device_ids: ...] *)
Fixpoint for_devices (fuel : nat) (lib : Library) (tb : RestClient)
    (args : Args) (device_ids : list string) (st : RunState) : result RunState :=
  match device_ids with
  | [] => Ok st
  | device :: rest =>
      st' ← process_device fuel lib tb args st device;
      for_devices fuel lib tb args rest st'
  end.

(** The statements after the device loop (lines 241-246):
    [all_meta.append(meta)], then the metadata file. *)
Definition save_metadata (lib : Library) (st : RunState) : result RunState :=
  meta ← or_raise (NameError "meta") (st_meta st);
  let all_meta := st_all_meta st ++ [meta] in
  dt_start ← or_raise (NameError "dt_start") (st_dt_start st);
  dt_end ← or_raise (NameError "dt_end") (st_dt_end st);
  let meta_file := meta_file_name lib dt_start dt_end in
  Ok (mkRunState
        (st_files st ++ [(meta_file, MetadataFile all_meta)])
        (st_log st ++ [(INFO, "Saved metadata to " +:+ meta_file)])
        all_meta (st_meta st) (st_dt_start st) (st_dt_end st)).

(** The script from the login on (lines 129-246). *)
Definition main (fuel : nat) (lib : Library) (tb : RestClient) (args : Args)
    : result RunState :=
  let device_ids := find_entity_data_by_query tb (device_query (device_profile args)) in
  let st0 :=
    mkRunState []
      [(INFO, "Connecting to ThingsBoard " +:+ host args);
       (INFO, "Get devices of profile " +:+ device_profile args +:+ "...");
       (INFO, "Found " +:+ str_of_nat (length device_ids)
              +:+ " devices of profile " +:+ device_profile args)]
      [] None None None in
  st ← for_devices fuel lib tb args device_ids st0;
  save_metadata lib st.

(** The records fetched for a device over the planned windows of the range,
    window by window. *)
Definition device_records (lib : Library) (tb : RestClient) (args : Args)
    (device : string) (T0 T1 : datetime) : list Records :=
  fetch_records lib tb device
    (select_keys (keys args) (get_timeseries_keys tb device))
    <$> batches batch_window T0 T1.

Definition device_rows (lib : Library) (tb : RestClient) (args : Args)
    (device : string) (T0 T1 : datetime) : list Row :=
  mjoin (dict_values <$>
           (fetch_records lib tb device
              (select_keys (keys args) (get_timeseries_keys tb device))
              <$> batches batch_window T0 T1)).

(** The log line an iteration of the device loop ends with. *)
Definition device_log_line (lib : Library) (tb : RestClient) (args : Args)
    (T0 T1 : datetime) (device : string) : Level * string :=
  if decide (device_rows lib tb args device T0 T1 = [])
  then (WARNING, "No telemetry data for device " +:+ device)
  else (INFO, "Saved telemetry data for device " +:+ device +:+ " to "
              +:+ output_file_name lib args T0 T1 device).

(** The table files a run has written, by name. *)
Definition table_files (st : RunState) : list (string * DataFrame) :=
  omap (fun f => match f.2 with
                 | TableFile _ df => Some (f.1, df)
                 | MetadataFile _ => None
                 end) (st_files st).

(** The metadata list in the metadata file a run has written. *)
Definition written_metadata (st : RunState) : option (list DeviceMeta) :=
  last (omap (fun f => match f.2 with
                       | MetadataFile metas => Some metas
                       | TableFile _ _ => None
                       end) (st_files st)).

End Exporter.

Import Exporter.

(** ** Single-entity lookup ([export/get_attribute.py]) *)

Module Lookup.

(** A latest value [{ts, value}] of an entity. *)
Record TsValue := mkTsValue { tv_ts : Z; tv_value : string }.

(** One element of [res.data]: [entity_id.id] and
    [latest: {"ATTRIBUTE": {key: TsValue}}]. *)
Record EntityData := mkEntityData {
  entity_id : string;
  latest : list (string * list (string * TsValue))
}.

(** The parts of the entity query that depend on the arguments. *)
Record EntityQuery := mkEntityQuery {
  q_latest_values : list string;
  q_filter_key : string;
  q_filter_value : string;
  q_page : nat;
  q_page_size : nat
}.

(** [client.entity_query_controller.find_entity_data_by_query_using_post],
    returning [res.data]. *)
Definition Client := EntityQuery -> list EntityData.

Definition build_query (match_attribute_key match_attribute_value
    get_attribute_key : string) : EntityQuery :=
  mkEntityQuery [match_attribute_key; get_attribute_key]
    match_attribute_key match_attribute_value 0 2.

Definition mismatch_message (match_attribute_key match_attribute_value : string)
    (found : nat) : string :=
  ("Expected exactly one device with " +:+ match_attribute_key +:+ " ")
  +:+ match_attribute_value +:+ (", found " +:+ str_of_nat found).

(** [get_attribute] (lines 31-99).  The arguments of the two
    [logger.debug] calls are evaluated before the [return], so their
    subscripts can raise first. *)
Definition get_attribute (client : Client) (match_attribute_key
    match_attribute_value get_attribute_key : string) : result string :=
  let data := client (build_query match_attribute_key match_attribute_value
                        get_attribute_key) in
  if decide (length data ≠ 1%nat) then
    Raise (ValueError (mismatch_message match_attribute_key match_attribute_value
                         (length data)))
  else
    d ← or_raise (IndexError "list index out of range") (data !! 0%nat);
    attrs ← or_raise (KeyError "ATTRIBUTE") (dict_get "ATTRIBUTE"%string (latest d));
    tv ← or_raise (KeyError get_attribute_key) (dict_get get_attribute_key attrs);
    Ok (tv_value tv).

End Lookup.

Import Lookup.

(** ** The enrichment script (the rest of [export/get_attribute.py]) *)

Module Enrich.

(** [s.replace(old, new)]: every non-overlapping occurrence of [old], from
    the left.  [skip] counts the characters of an occurrence just replaced
    that are still to be passed over. *)
Fixpoint replace_from (old new : string) (skip : nat) (s : string) : string :=
  match s with
  | EmptyString => if decide (old = ""%string) then new else ""%string
  | String c s' =>
      match skip with
      | S n => replace_from old new n s'
      | O =>
          if String.prefix old s
          then
            if decide (old = ""%string)
            then new +:+ String c (replace_from old new 0 s')
            else new +:+ replace_from old new (String.length old - 1) s'
          else String c (replace_from old new 0 s')
      end
  end.

Definition str_replace (old new s : string) : string := replace_from old new 0 s.

(** [old in s]: [old] occurs somewhere in [s]. *)
Fixpoint occurs (old s : string) : bool :=
  String.prefix old s
  || match s with
     | EmptyString => false
     | String _ s' => occurs old s'
     end.

(** A frame read by [pd.read_csv]: its column names and its rows.  A row
    binds a column to its cell unless the cell is missing (NaN).  The type of
    the cells is a parameter. *)
Record CsvFrame (Cell : Type) := mkCsvFrame {
  csv_columns : list string;
  csv_rows : list (list (string * Cell))
}.
Arguments mkCsvFrame {Cell} _ _.
Arguments csv_columns {Cell} _.
Arguments csv_rows {Cell} _.

(** Python's [str] on a cell, and the cell holding a given string. *)
Record CellOps (Cell : Type) := mkCellOps {
  str_of : Cell -> string;
  of_str : string -> Cell
}.
Arguments mkCellOps {Cell} _ _.
Arguments str_of {Cell} _ _.
Arguments of_str {Cell} _ _.

(** [df.dropna(subset=[key])] *)
Definition dropna {Cell} (key : string) (df : CsvFrame Cell) : CsvFrame Cell :=
  mkCsvFrame (csv_columns df)
    (filter (fun row => is_Some (dict_get key row)) (csv_rows df)).

(** The values of [df[key]], in row order. *)
Definition series {Cell} (key : string) (df : CsvFrame Cell) : list Cell :=
  omap (dict_get key) (csv_rows df).

(** [series.apply(f)]: [f] on every value in order; the first exception
    ends the call. *)
Fixpoint series_apply {A B} (f : A -> result B) (l : list A) : result (list B) :=
  match l with
  | [] => Ok []
  | x :: l' =>
      y ← f x;
      ys ← series_apply f l';
      Ok (y :: ys)
  end.

(** [df[name] = values]: a new column goes last, an existing one is
    overwritten in place. *)
Definition set_column {Cell} (name : string) (values : list Cell)
    (df : CsvFrame Cell) : CsvFrame Cell :=
  mkCsvFrame
    (if decide (name ∈ csv_columns df) then csv_columns df
     else csv_columns df ++ [name])
    (zip_with (fun row v => dict_set name v row) (csv_rows df) values).

(** [f"_with_{attribute}.csv"] *)
Definition with_suffix (attribute : string) : string :=
  "_with_" +:+ attribute +:+ ".csv".

(** The script from [pd.read_csv] on (lines 154-179), given the frame read
    from [args.csv]: the path and the frame handed to [to_csv].  Log lines
    are left out. *)
Definition enrich {Cell} (ops : CellOps Cell) (client : Client)
    (csv attribute : string) (df : CsvFrame Cell)
    : result (string * CsvFrame Cell) :=
  match_attribute_key ←
    or_raise (IndexError "index 0 is out of bounds") (head (csv_columns df));
  let df := dropna match_attribute_key df in
  values ←
    series_apply
      (fun row => get_attribute client match_attribute_key (str_of ops row)
                    attribute)
      (series match_attribute_key df);
  let df := set_column attribute (of_str ops <$> values) df in
  let output_csv := str_replace ".csv" (with_suffix attribute) csv in
  Ok (output_csv, df).

End Enrich.

Import Enrich.

(** ** A small installation used to run the model *)

Module Examples.

(** 1970-01-01T00:00:00 and 2023-01-01T00:00:00 on the wall clock, and the
    first three days of 2023 in UTC. *)
Definition epoch_wall : Z := 719162 * 86400 * 1000000.
Definition jan1_wall : Z := 738520 * 86400 * 1000000.
Definition jan1 : datetime := mkDatetime jan1_wall (Some 0).
Definition jan2 : datetime := mkDatetime (jan1_wall + batch_window) (Some 0).
Definition jan3 : datetime := mkDatetime (jan1_wall + 2 * batch_window) (Some 0).

(** 9999-12-31T00:00:00Z and 9999-12-31T12:00:00Z. *)
Definition dec31 : datetime := mkDatetime (3652058 * 86400 * 1000000) (Some 0).
Definition dec31_noon : datetime :=
  mkDatetime (3652058 * 86400 * 1000000 + 12 * 3600 * 1000000) (Some 0).

(** A library that knows three dates; its millisecond conversion is exact,
    which the real one is on whole seconds. *)
Definition demo_lib : Library :=
  mkLibrary
    (fun s => if decide (s = "2023-01-01T00:00:00Z"%string) then Some jan1
              else if decide (s = "2023-01-02T00:00:00Z"%string) then Some jan2
              else if decide (s = "2023-01-03T00:00:00Z"%string) then Some jan3
              else None)
    (fun s => ValueError ("Invalid isoformat string: '" +:+ s +:+ "'"))
    (fun dt => if decide (dt = jan1) then "2023-01-01"%string
               else if decide (dt = jan2) then "2023-01-02"%string
               else "2023-01-03"%string)
    (fun dt => Z.quot (instant dt - epoch_wall) 1000)
    (fun _ => None).

(** Two devices reporting the keys [temp] and [hum]: [dev1] has one [temp]
    sample at the start of every requested window and no [hum] sample,
    [dev2] has no samples. *)
Definition demo_tb : RestClient :=
  mkRestClient
    (fun _ => ["dev1"; "dev2"]%string)
    (fun _ => ["serialNumber"]%string)
    (fun device _ => [mkAttribute "serialNumber" (PStr device)])
    (fun _ => ["temp"; "hum"]%string)
    (fun device _ ts _ _ =>
       if decide (device = "dev1"%string)
       then [("temp"%string, [mkSample ts (PInt 5)])]
       else []).

Definition demo_args : Args :=
  mkArgs "https://tb.example" Csv "sensors"
    "2023-01-01T00:00:00Z" "2023-01-02T00:00:00Z" None.

(** The state before the first device of a run. *)
Definition empty_state : RunState := mkRunState [] [] [] None None None.

(** An entity query that finds exactly one device, without and with the
    requested attribute in its latest values. *)
Definition one_device : Client :=
  fun _ => [mkEntityData "dev1"
              [("ATTRIBUTE"%string,
                [("serialNumber"%string, mkTsValue 1 "SN-1");
                 ("model"%string, mkTsValue 2 "T1000")])]].

Definition no_device : Client := fun _ => [].

End Examples.

Import Examples.

(** ** Time Window Planner *)

Section PlannerFacts.

Lemma ceil_div_spec a d :
  0 < d -> (ceil_div a d - 1) * d < a <= ceil_div a d * d.
Proof.
  intros Hd. unfold ceil_div.
  pose proof (Z.div_mod (a + d - 1) d ltac:(lia)) as Hdm.
  pose proof (Z.mod_pos_bound (a + d - 1) d Hd) as Hb.
  nia.
Qed.

Lemma ceil_div_nonpos a d : 0 < d -> a <= 0 -> ceil_div a d <= 0.
Proof.
  intros Hd Ha. pose proof (ceil_div_spec a d Hd). nia.
Qed.

Lemma ceil_div_pos a d : 0 < d -> 0 < a -> 0 < ceil_div a d.
Proof.
  intros Hd Ha. pose proof (ceil_div_spec a d Hd). nia.
Qed.

Lemma ceil_div_step a d : 0 < d -> ceil_div (a - d) d = ceil_div a d - 1.
Proof.
  intros Hd. unfold ceil_div.
  replace (a - d + d - 1) with ((a + d - 1) + (-1) * d) by lia.
  rewrite Z.div_add by lia. lia.
Qed.

Lemma instant_shifted T0 d : instant (shifted T0 d) = instant T0 + d.
Proof. unfold instant, shifted. cbn. lia. Qed.

Lemma shifted_shifted T0 d e : shifted (shifted T0 d) e = shifted T0 (d + e).
Proof. unfold shifted. cbn. f_equal. lia. Qed.

Lemma shifted_0 T0 : shifted T0 0 = T0.
Proof. destruct T0 as [w o]. unfold shifted. cbn. f_equal. lia. Qed.

Lemma same_kind_shifted T0 T1 d : same_kind T0 T1 -> same_kind (shifted T0 d) T1.
Proof. done. Qed.

(** Comparison succeeds exactly on two values of the same kind, and then
    compares instants. *)
Lemma dt_lt_same_kind a b :
  same_kind a b -> dt_lt a b = Ok (instant a <? instant b).
Proof.
  unfold same_kind, dt_lt, instant.
  destruct (utcoffset a) as [oa|], (utcoffset b) as [ob|]; cbn.
  - done.
  - intros [H _]. by destruct (H ltac:(by eexists)).
  - intros [_ H]. by destruct (H ltac:(by eexists)).
  - intros _. by rewrite !Z.sub_0_r.
Qed.

Lemma dt_lt_Ok a b r : dt_lt a b = Ok r -> same_kind a b.
Proof.
  unfold same_kind, dt_lt.
  destruct (utcoffset a) as [oa|], (utcoffset b) as [ob|]; try done;
    intros _; split; intros _; by eexists.
Qed.

Lemma dt_lt_mixed a b :
  ~ same_kind a b ->
  dt_lt a b
  = Raise (TypeError "can't compare offset-naive and offset-aware datetimes").
Proof.
  unfold same_kind, dt_lt.
  destruct (utcoffset a) as [oa|], (utcoffset b) as [ob|]; try done;
    intros H; destruct H; split; intros _; by eexists.
Qed.

Lemma dt_add_Ok a d r : dt_add a d = Ok r -> r = shifted a d.
Proof. unfold dt_add. case_match; [|done]. by intros [= <-]. Qed.

Lemma dt_add_in_range a d :
  min_wall <= wall a + d <= max_wall -> dt_add a d = Ok (shifted a d).
Proof.
  intros [Hlo Hhi]. unfold dt_add.
  apply Z.leb_le in Hlo, Hhi. by rewrite Hlo, Hhi.
Qed.

Lemma dt_add_overflow a d :
  max_wall < wall a + d ->
  dt_add a d = Raise (OverflowError "date value out of range").
Proof.
  intros H. unfold dt_add.
  apply Z.leb_gt in H. rewrite H. by rewrite andb_false_r.
Qed.

Lemma batch_count_stop D T0 T1 :
  0 < D -> instant T1 <= instant T0 -> batch_count D T0 T1 = 0%nat.
Proof.
  intros HD H. unfold batch_count.
  pose proof (ceil_div_nonpos (instant T1 - instant T0) D HD ltac:(lia)). lia.
Qed.

Lemma batch_count_step D T0 T1 :
  0 < D -> instant T0 < instant T1 ->
  batch_count D T0 T1 = S (batch_count D (shifted T0 D) T1).
Proof.
  intros HD H. unfold batch_count. rewrite instant_shifted.
  replace (instant T1 - (instant T0 + D))
    with ((instant T1 - instant T0) - D) by lia.
  rewrite ceil_div_step by done.
  pose proof (ceil_div_pos (instant T1 - instant T0) D HD ltac:(lia)). lia.
Qed.

Lemma batches_stop D T0 T1 :
  0 < D -> instant T1 <= instant T0 -> batches D T0 T1 = [].
Proof. intros HD H. unfold batches. by rewrite batch_count_stop. Qed.

Lemma nth_batch_shifted D T0 T1 i :
  nth_batch D (shifted T0 D) T1 i = nth_batch D T0 T1 (S i).
Proof.
  unfold nth_batch. rewrite !shifted_shifted, instant_shifted.
  replace (D + Z.of_nat i * D) with (Z.of_nat (S i) * D) by lia.
  replace (D + (Z.of_nat i * D + D)) with (Z.of_nat (S i) * D + D) by lia.
  replace (instant T0 + D + (Z.of_nat i * D + D))
    with (instant T0 + (Z.of_nat (S i) * D + D)) by lia.
  done.
Qed.

Lemma batches_step D T0 T1 :
  0 < D -> instant T0 < instant T1 ->
  batches D T0 T1
  = mkBatch T0 (if instant T1 <? instant T0 + D then T1 else shifted T0 D)
    :: batches D (shifted T0 D) T1.
Proof.
  intros HD H. unfold batches. rewrite (batch_count_step D T0 T1) by done.
  cbn [seq fmap list_fmap]. f_equal.
  - unfold nth_batch. cbn [Z.of_nat]. rewrite Z.mul_0_l, Z.add_0_l.
    by rewrite shifted_0.
  - rewrite <- seq_shift, <- list_fmap_compose. apply list_fmap_ext.
    intros _ i _. unfold compose. by rewrite nth_batch_shifted.
Qed.

Lemma walkable_step D T0 T1 :
  0 < D -> instant T0 < instant T1 -> walkable D T0 T1 ->
  min_wall <= wall T0 + D <= max_wall /\ walkable D (shifted T0 D) T1.
Proof.
  intros HD Hlt [Hlo Hhi].
  rewrite (batch_count_step D T0 T1) in Hhi by done.
  unfold walkable. cbn [shifted wall]. nia.
Qed.

(** With enough fuel, between datetimes of the same kind and within the
    calendar, the loop runs its body on the closed form. *)
Lemma batch_loop_enough {S : Type} (body : Batch -> S -> result S) D T1 :
  0 < D ->
  forall fuel T0 (s : S),
    same_kind T0 T1 -> walkable D T0 T1 ->
    (batch_count D T0 T1 <= fuel)%nat ->
    batch_loop fuel body D T0 T1 s = run_body body (batches D T0 T1) s.
Proof.
  intros HD fuel. induction fuel as [|fuel IH]; intros T0 s Hkind Hwalk Hf.
  - cbn [batch_loop]. rewrite dt_lt_same_kind by done. cbn.
    destruct (Z.ltb_spec (instant T0) (instant T1)) as [Hlt|Hge].
    + rewrite (batch_count_step D T0 T1) in Hf by done. lia.
    + by rewrite batches_stop.
  - cbn [batch_loop]. rewrite dt_lt_same_kind by done. cbn.
    destruct (Z.ltb_spec (instant T0) (instant T1)) as [Hlt|Hge];
      [|by rewrite batches_stop].
    destruct (walkable_step D T0 T1 HD Hlt Hwalk) as [Hrange Hwalk'].
    rewrite dt_add_in_range by done. cbn.
    unfold dt_min.
    rewrite dt_lt_same_kind by (unfold same_kind in *; cbn; tauto). cbn.
    rewrite instant_shifted, batches_step by done. cbn [run_body].
    destruct (body _ s) as [s'| |]; [|done..]. cbn.
    rewrite (batch_count_step D T0 T1) in Hf by done.
    apply IH; [done|done|lia].
Qed.

(** Whatever the fuel and the datetimes, a run of the loop that reaches its
    exit ran its body on the closed form. *)
Lemma batch_loop_Ok {S : Type} (body : Batch -> S -> result S) D T1 :
  0 < D ->
  forall fuel T0 (s s' : S),
    batch_loop fuel body D T0 T1 s = Ok s' ->
    run_body body (batches D T0 T1) s = Ok s'.
Proof.
  intros HD fuel. induction fuel as [|fuel IH]; intros T0 s s'.
  - cbn [batch_loop].
    destruct (dt_lt T0 T1) as [lt| |] eqn:Hlt; [|done..].
    rewrite (dt_lt_same_kind _ _ (dt_lt_Ok _ _ _ Hlt)) in Hlt.
    injection Hlt as <-. cbn.
    destruct (Z.ltb_spec (instant T0) (instant T1)); [done|].
    by rewrite batches_stop.
  - cbn [batch_loop].
    destruct (dt_lt T0 T1) as [lt| |] eqn:Hlt; [|done..].
    pose proof (dt_lt_Ok _ _ _ Hlt) as Hkind.
    rewrite (dt_lt_same_kind _ _ Hkind) in Hlt. injection Hlt as <-. cbn.
    destruct (Z.ltb_spec (instant T0) (instant T1)) as [Hlt|Hge];
      [|by rewrite batches_stop].
    destruct (dt_add T0 D) as [next| |] eqn:Hadd; [|done..].
    apply dt_add_Ok in Hadd as ->. cbn.
    unfold dt_min.
    rewrite dt_lt_same_kind by (unfold same_kind in *; cbn; tauto). cbn.
    rewrite instant_shifted, batches_step by done. cbn [run_body].
    destruct (body _ s) as [s1| |]; [|done..]. cbn. apply IH.
Qed.

Lemma run_body_record (bs visited : list Batch) :
  run_body (fun w visited => Ok (visited ++ [w])) bs visited = Ok (visited ++ bs).
Proof.
  revert visited. induction bs as [|w bs IH]; intros visited; cbn.
  - by rewrite app_nil_r.
  - rewrite IH. by rewrite <- app_assoc.
Qed.

Lemma batches_lookup D T0 T1 i b :
  batches D T0 T1 !! i = Some b <->
  (i < batch_count D T0 T1)%nat /\ b = nth_batch D T0 T1 i.
Proof.
  unfold batches. rewrite list_lookup_fmap. split.
  - intros H. destruct (seq 0 _ !! i) as [j|] eqn:Hj; [|done].
    apply lookup_seq in Hj as [-> Hlt]. cbn in H. by inversion H.
  - intros [Hlt ->]. by rewrite (lookup_seq_lt _ _ _ Hlt).
Qed.

Lemma length_batches D T0 T1 : length (batches D T0 T1) = batch_count D T0 T1.
Proof. unfold batches. by rewrite length_fmap, length_seq. Qed.

Lemma batch_count_bounds D T0 T1 :
  0 < D -> instant T0 < instant T1 ->
  instant T0 + (Z.of_nat (batch_count D T0 T1) - 1) * D < instant T1
  <= instant T0 + Z.of_nat (batch_count D T0 T1) * D.
Proof.
  intros HD H. unfold batch_count.
  pose proof (ceil_div_spec (instant T1 - instant T0) D HD).
  pose proof (ceil_div_pos (instant T1 - instant T0) D HD ltac:(lia)).
  rewrite Z2Nat.id by lia. lia.
Qed.

End PlannerFacts.

Section PlannerProperties.

Variables (D : timedelta) (T0 T1 : datetime).
Hypothesis HD : 0 < D.

Lemma nth_batch_start i :
  instant (b_start (nth_batch D T0 T1 i)) = instant T0 + Z.of_nat i * D.
Proof. cbn. apply instant_shifted. Qed.

Lemma nth_batch_end i :
  instant (b_end (nth_batch D T0 T1 i))
  = Z.min (instant T0 + (Z.of_nat i * D + D)) (instant T1).
Proof.
  cbn. destruct (Z.ltb_spec (instant T1) (instant T0 + (Z.of_nat i * D + D))).
  - lia.
  - rewrite instant_shifted. lia.
Qed.

Lemma nth_batch_nonempty i :
  (i < batch_count D T0 T1)%nat ->
  instant (b_start (nth_batch D T0 T1 i)) < instant (b_end (nth_batch D T0 T1 i)).
Proof using HD.
  intros Hi. rewrite nth_batch_start, nth_batch_end.
  destruct (Z.lt_ge_cases (instant T0) (instant T1)) as [Hlt|Hge].
  - pose proof (batch_count_bounds D T0 T1 HD Hlt). nia.
  - rewrite batch_count_stop in Hi by done. lia.
Qed.

Lemma nth_batch_full i :
  (S i < batch_count D T0 T1)%nat ->
  instant (b_end (nth_batch D T0 T1 i))
  = instant (b_start (nth_batch D T0 T1 i)) + D.
Proof using HD.
  intros Hi. rewrite nth_batch_start, nth_batch_end.
  destruct (Z.lt_ge_cases (instant T0) (instant T1)) as [Hlt|Hge].
  - pose proof (batch_count_bounds D T0 T1 HD Hlt). nia.
  - rewrite batch_count_stop in Hi by done. lia.
Qed.

Lemma batches_contiguous : contiguous (batches D T0 T1).
Proof using HD.
  intros i b b' [Hi ->]%batches_lookup [Hi' ->]%batches_lookup.
  rewrite nth_batch_full by done. rewrite !nth_batch_start. lia.
Qed.

Lemma batches_non_overlapping : non_overlapping (batches D T0 T1).
Proof using HD.
  intros i j b b' Hij [Hi ->]%batches_lookup [Hj ->]%batches_lookup.
  rewrite nth_batch_start, nth_batch_end. nia.
Qed.

Lemma batches_covers : covers (batches D T0 T1) T0 T1.
Proof using HD.
  intros t. split.
  - intros [Hlo Hhi].
    pose proof (batch_count_bounds D T0 T1 HD ltac:(lia)) as Hn.
    pose proof (Z.div_mod (t - instant T0) D ltac:(lia)) as Hdm.
    pose proof (Z.mod_pos_bound (t - instant T0) D HD) as Hm.
    assert (0 <= (t - instant T0) / D) as Hq by (apply Z.div_pos; lia).
    set (q := (t - instant T0) / D) in *.
    assert (Z.to_nat q < batch_count D T0 T1)%nat as Hi by nia.
    exists (nth_batch D T0 T1 (Z.to_nat q)). split.
    + apply list_elem_of_lookup. exists (Z.to_nat q).
      by apply batches_lookup.
    + unfold in_batch. rewrite nth_batch_start, nth_batch_end.
      rewrite Z2Nat.id by done. lia.
  - intros (b & Hb & Ht). apply list_elem_of_lookup in Hb as [i Hb].
    apply batches_lookup in Hb as [Hi ->].
    unfold in_batch in Ht. rewrite nth_batch_start, nth_batch_end in Ht. nia.
Qed.

Lemma batches_head :
  instant T0 < instant T1 -> b_start <$> head (batches D T0 T1) = Some T0.
Proof using HD. intros H. by rewrite batches_step. Qed.

Lemma batches_last :
  instant T0 < instant T1 ->
  instant ∘ b_end <$> last (batches D T0 T1) = Some (instant T1).
Proof using HD.
  intros H. pose proof (batch_count_bounds D T0 T1 HD H) as Hn.
  rewrite last_lookup, length_batches.
  destruct (batch_count D T0 T1) as [|n] eqn:Hc; [lia|]. cbn [Nat.pred].
  assert (batches D T0 T1 !! n = Some (nth_batch D T0 T1 n)) as ->
    by (apply batches_lookup; split; [lia|done]).
  cbn [fmap option_fmap option_map compose]. f_equal.
  rewrite nth_batch_end. lia.
Qed.

End PlannerProperties.

(** The claim of C1 as written fails in two ways.  Near the end of the
    calendar the loop cannot form [dt_current + batch_window]: for the range
    from 9999-12-31T00:00Z to 9999-12-31T12:00Z it ends with an
    [OverflowError] instead of producing a batch.  And a naive start with an
    aware end (or the reverse) ends with a [TypeError] at the first test of
    the loop condition. *)
Lemma C1_counterexample :
  ~ (forall (D : timedelta) (T0 T1 : datetime),
       0 < D -> valid_datetime T0 -> valid_datetime T1 -> same_kind T0 T1 ->
       instant T0 < instant T1 ->
       exists fuel bs,
         batch_loop fuel (fun w visited => Ok (visited ++ [w])) D T0 T1 []
         = Ok bs)
  /\ ~ (forall (D : timedelta) (T0 T1 : datetime),
       0 < D -> valid_datetime T0 -> valid_datetime T1 -> walkable D T0 T1 ->
       instant T0 < instant T1 ->
       exists fuel bs,
         batch_loop fuel (fun w visited => Ok (visited ++ [w])) D T0 T1 []
         = Ok bs).
Proof.
  split.
  - intros H.
    destruct (H batch_window dec31 dec31_noon) as (fuel & bs & Hplan);
      [done|by vm_compute|by vm_compute|done|by vm_compute|].
    destruct fuel as [|fuel]; vm_compute in Hplan; discriminate Hplan.
  - intros H.
    destruct (H batch_window (mkDatetime (wall jan1) None) jan2)
      as (fuel & bs & Hplan);
      [done|by vm_compute|by vm_compute|by vm_compute|by vm_compute|].
    destruct fuel as [|fuel]; vm_compute in Hplan; discriminate Hplan.
Qed.

(** C1 (amended). For a batch duration [D > 0] and a range between two
    naive or two aware datetimes that can be walked in steps of [D] without
    leaving the calendar, the loop reaches its exit (any fuel from
    [batch_count] on suffices) having run its body, whatever it is, on the
    windows of the closed form, in order; every run that reaches the exit did
    so.  The windows are contiguous, do not overlap and cover exactly
    [[T0, T1)]; each is non-empty, lasts [D] except possibly the last, which
    is no longer than [D]; the first starts at [T0] and the last ends at
    [T1] (at the instant of [T1]: the end of a last window of full length
    is [T0] moved by a multiple of [D], which carries the UTC offset of
    [T0]); their number is [ceil((T1 - T0) / D)]; and for [T0 >= T1] there
    is no window. *)
Theorem C1_time_window_planner (D : timedelta) (T0 T1 : datetime) :
  0 < D -> same_kind T0 T1 -> walkable D T0 T1 ->
  exists bs : list Batch,
    (forall (S : Type) (body : Batch -> S -> result S) (s : S) fuel,
       (batch_count D T0 T1 <= fuel)%nat ->
       batch_loop fuel body D T0 T1 s = run_body body bs s)
    /\ (forall fuel, (batch_count D T0 T1 <= fuel)%nat ->
          plan fuel D T0 T1 = Ok bs)
    /\ (forall (S : Type) (body : Batch -> S -> result S) (s s' : S) fuel,
          batch_loop fuel body D T0 T1 s = Ok s' ->
          run_body body bs s = Ok s')
    /\ contiguous bs
    /\ non_overlapping bs
    /\ covers bs T0 T1
    /\ (forall i b, bs !! i = Some b ->
          instant (b_start b) < instant (b_end b) /\ b_duration b <= D
          /\ ((S i < length bs)%nat -> b_duration b = D))
    /\ (instant T0 < instant T1 ->
          b_start <$> head bs = Some T0
          /\ instant ∘ b_end <$> last bs = Some (instant T1)
          /\ Z.of_nat (length bs) = ceil_div (instant T1 - instant T0) D
          /\ (ceil_div (instant T1 - instant T0) D - 1) * D
             < instant T1 - instant T0
             <= ceil_div (instant T1 - instant T0) D * D)
    /\ (instant T1 <= instant T0 -> bs = []).
Proof.
  intros HD Hkind Hwalk. exists (batches D T0 T1).
  split; [intros S body s fuel; by apply batch_loop_enough|].
  split.
  { intros fuel Hfuel. unfold plan.
    rewrite batch_loop_enough by done. apply run_body_record. }
  split; [intros S body s s' fuel; by apply batch_loop_Ok|].
  split; [by apply batches_contiguous|].
  split; [by apply batches_non_overlapping|].
  split; [by apply batches_covers|].
  split.
  { intros i b [Hi ->]%batches_lookup.
    split; [by apply nth_batch_nonempty|].
    unfold b_duration. rewrite nth_batch_start, nth_batch_end.
    split; [lia|].
    rewrite length_batches. intros Hlt.
    pose proof (nth_batch_full D T0 T1 HD i Hlt) as Hfull.
    rewrite nth_batch_start, nth_batch_end in Hfull. lia. }
  split.
  { intros Hlt.
    split; [by apply batches_head|].
    split; [by apply batches_last|].
    split; [|by apply ceil_div_spec].
    rewrite length_batches. unfold batch_count.
    pose proof (ceil_div_pos (instant T1 - instant T0) D HD ltac:(lia)). lia. }
  intros Hge. by apply batches_stop.
Qed.

Lemma C1_witness :
  exists bs : list Batch,
    plan 2 batch_window jan1 jan3 = Ok bs
    /\ bs = [mkBatch jan1 jan2; mkBatch jan2 jan3]
    /\ covers bs jan1 jan3.
Proof.
  destruct (C1_time_window_planner batch_window jan1 jan3)
    as (bs & _ & Hplan & _ & _ & _ & Hcov & _).
  - done.
  - done.
  - split; vm_compute; discriminate.
  - exists bs. pose proof (Hplan 2%nat ltac:(vm_compute; lia)) as H2.
    split; [done|]. split; [|done].
    vm_compute in H2. by inversion H2.
Defined.
(** ** Dictionaries *)

(** Closed decidable goals ([NoDup], membership) by evaluation. *)
Ltac by_compute := apply (bool_decide_unpack _); vm_compute; reflexivity.

Section DictFacts.

Context {K V : Type} `{EqDecision K}.
Implicit Types (d : list (K * V)) (k : K) (v : V).

Lemma dict_get_None d k : dict_get k d = None <-> k ∉ dict_keys d.
Proof.
  unfold dict_keys. induction d as [|[k' v'] d IH]; cbn.
  - split; [intros _; apply not_elem_of_nil|done].
  - rewrite not_elem_of_cons. destruct (decide (k' = k)) as [->|Hne].
    + split; [done|]. by intros [? _].
    + rewrite IH. split; [by split|by intros [_ ?]].
Qed.

Lemma dict_get_Some_keys d k v : dict_get k d = Some v -> k ∈ dict_keys d.
Proof.
  intros Hg. destruct (decide (k ∈ dict_keys d)) as [|Hn]; [done|].
  apply dict_get_None in Hn. congruence.
Qed.

Lemma dict_get_set_eq d k v : dict_get k (dict_set k v d) = Some v.
Proof.
  induction d as [|[k' v'] d IH]; cbn.
  - by rewrite decide_True.
  - destruct (decide (k' = k)) as [->|Hne]; cbn.
    + by rewrite decide_True.
    + by rewrite decide_False.
Qed.

Lemma dict_get_set_ne d k k' v :
  k ≠ k' -> dict_get k' (dict_set k v d) = dict_get k' d.
Proof.
  intros Hne. induction d as [|[k0 v0] d IH]; cbn.
  - by rewrite decide_False.
  - destruct (decide (k0 = k)) as [->|Hne0]; cbn.
    + by rewrite !decide_False.
    + by rewrite IH.
Qed.

Lemma dict_set_set d k v v' : dict_set k v' (dict_set k v d) = dict_set k v' d.
Proof.
  induction d as [|[k0 v0] d IH]; cbn.
  - by rewrite decide_True.
  - destruct (decide (k0 = k)) as [->|Hne0]; cbn.
    + by rewrite decide_True.
    + by rewrite decide_False, IH.
Qed.

Lemma dict_keys_set_old d k v :
  k ∈ dict_keys d -> dict_keys (dict_set k v d) = dict_keys d.
Proof.
  unfold dict_keys. induction d as [|[k0 v0] d IH]; cbn.
  - by intros ?%elem_of_nil.
  - intros Hin. destruct (decide (k0 = k)) as [->|Hne0]; cbn; [done|].
    f_equal. apply IH. apply elem_of_cons in Hin as [?|?]; [congruence|done].
Qed.

Lemma dict_set_new d k v : k ∉ dict_keys d -> dict_set k v d = d ++ [(k, v)].
Proof.
  unfold dict_keys. induction d as [|[k0 v0] d IH]; cbn; [done|].
  intros [Hne Hnin]%not_elem_of_cons.
  rewrite decide_False by done. by rewrite IH.
Qed.

Lemma dict_get_app_new d k v k' :
  dict_get k' (d ++ [(k, v)])
  = match dict_get k' d with
    | Some x => Some x
    | None => if decide (k = k') then Some v else None
    end.
Proof.
  induction d as [|[k0 v0] d IH]; cbn; [done|].
  by destruct (decide (k0 = k')).
Qed.

Lemma dict_get_elem_of d k v :
  NoDup (dict_keys d) -> (k, v) ∈ d -> dict_get k d = Some v.
Proof.
  unfold dict_keys. induction d as [|[k0 v0] d IH]; cbn.
  - by intros _ ?%elem_of_nil.
  - intros [Hnin Hnd]%NoDup_cons [Heq|Hin]%elem_of_cons.
    + inversion Heq; subst. by rewrite decide_True.
    + destruct (decide (k0 = k)) as [->|Hne]; [|by apply IH].
      exfalso. apply Hnin. apply list_elem_of_fmap. by exists (k, v).
Qed.

End DictFacts.

(** ** Sample Merger *)

Section MergerFacts.

Implicit Types (records : Records) (samples : list Sample) (res : Response).

(** What [add_sample] stores: the entry of the sample's timestamp is the
    previous row (or the fresh row [{"ts": ts}]) with [key] set. *)
Lemma add_sample_unfold key records s :
  add_sample key records s
  = match dict_get (s_ts s) records with
    | Some row => dict_set (s_ts s) (dict_set key (s_value s) row) records
    | None =>
        records ++ [(s_ts s, dict_set key (s_value s) [("ts"%string, PInt (s_ts s))])]
    end.
Proof.
  unfold add_sample, setdefault.
  destruct (dict_get (s_ts s) records) as [row|] eqn:Hg; [done|].
  apply dict_get_None in Hg.
  rewrite <- (dict_set_new records (s_ts s)) by done.
  rewrite dict_set_set. by rewrite dict_set_new.
Qed.

Lemma add_sample_get key records s t :
  dict_get t (add_sample key records s)
  = if decide (s_ts s = t)
    then Some (dict_set key (s_value s)
                 (default [("ts"%string, PInt t)] (dict_get t records)))
    else dict_get t records.
Proof.
  rewrite add_sample_unfold.
  destruct (dict_get (s_ts s) records) as [row|] eqn:Hg.
  - destruct (decide (s_ts s = t)) as [<-|Hne].
    + by rewrite dict_get_set_eq, Hg.
    + by rewrite dict_get_set_ne.
  - rewrite dict_get_app_new. destruct (decide (s_ts s = t)) as [<-|Hne].
    + by rewrite Hg.
    + by destruct (dict_get t records).
Qed.

Lemma add_sample_keys key records s :
  dict_keys (add_sample key records s)
  = if decide (s_ts s ∈ dict_keys records) then dict_keys records
    else dict_keys records ++ [s_ts s].
Proof.
  rewrite add_sample_unfold.
  destruct (dict_get (s_ts s) records) as [row|] eqn:Hg.
  - pose proof (dict_get_Some_keys _ _ _ Hg) as Hin.
    rewrite decide_True by done. by apply dict_keys_set_old.
  - apply dict_get_None in Hg. rewrite decide_False by done.
    unfold dict_keys. by rewrite fmap_app.
Qed.

Lemma add_sample_NoDup key records s :
  NoDup (dict_keys records) -> NoDup (dict_keys (add_sample key records s)).
Proof.
  intros Hnd. rewrite add_sample_keys. case_decide; [done|].
  apply NoDup_app. split; [done|]. split; [|apply NoDup_singleton].
  intros x Hx ->%list_elem_of_singleton. done.
Qed.

Lemma add_samples_cons key records s samples :
  add_samples key records (s :: samples)
  = add_samples key (add_sample key records s) samples.
Proof. reflexivity. Qed.

Lemma merge_from_cons key samples res records :
  merge_from ((key, samples) :: res) records
  = merge_from res (add_samples key records samples).
Proof. reflexivity. Qed.

Lemma add_samples_NoDup key samples records :
  NoDup (dict_keys records) -> NoDup (dict_keys (add_samples key records samples)).
Proof.
  revert records.
  induction samples as [|s samples IH]; intros records Hnd; [done|].
  rewrite add_samples_cons. by apply IH, add_sample_NoDup.
Qed.

(** The timestamps of a per-batch mapping are pairwise distinct: there is
    at most one record per timestamp. *)
Lemma merge_from_NoDup res records :
  NoDup (dict_keys records) -> NoDup (dict_keys (merge_from res records)).
Proof.
  revert records.
  induction res as [|[key samples] res IH]; intros records Hnd; [done|].
  rewrite merge_from_cons. by apply IH, add_samples_NoDup.
Qed.

Lemma merge_NoDup res : NoDup (dict_keys (merge res)).
Proof. apply merge_from_NoDup. cbn. apply NoDup_nil_2. Qed.

(** The cell of the key being merged. *)
Lemma add_sample_cell_same key records s t :
  row_cell (add_sample key records s) t key
  = if decide (s_ts s = t) then Some (s_value s) else row_cell records t key.
Proof.
  unfold row_cell. rewrite add_sample_get.
  case_decide; [|done]. cbn. apply dict_get_set_eq.
Qed.

(** Cells of other keys are never removed or overwritten. *)
Lemma add_sample_cell_other key records s t k v :
  k ≠ key -> row_cell records t k = Some v ->
  row_cell (add_sample key records s) t k = Some v.
Proof.
  unfold row_cell. intros Hne Hc. rewrite add_sample_get.
  case_decide; [|done]. cbn. rewrite dict_get_set_ne by done.
  by destruct (dict_get t records).
Qed.

Lemma add_samples_cell_same key samples records t :
  row_cell (add_samples key records samples) t key
  = match last_at t samples with
    | Some v => Some v
    | None => row_cell records t key
    end.
Proof.
  revert records.
  induction samples as [|s samples IH]; intros records; [done|].
  rewrite add_samples_cons, IH. cbn [last_at].
  destruct (last_at t samples); [done|].
  rewrite add_sample_cell_same. by case_decide.
Qed.

Lemma add_samples_cell_other key samples records t k v :
  k ≠ key -> row_cell records t k = Some v ->
  row_cell (add_samples key records samples) t k = Some v.
Proof.
  intros Hne. revert records.
  induction samples as [|s samples IH]; intros records Hc; [done|].
  rewrite add_samples_cons. by apply IH, add_sample_cell_other.
Qed.

Lemma merge_from_cell_other res records t k v :
  k ∉ dict_keys res -> row_cell records t k = Some v ->
  row_cell (merge_from res records) t k = Some v.
Proof.
  revert records. unfold dict_keys.
  induction res as [|[key samples] res IH]; intros records Hnin Hc; [done|].
  cbn in Hnin. apply not_elem_of_cons in Hnin as [Hne Hnin].
  rewrite merge_from_cons. by apply IH, add_samples_cell_other.
Qed.

(** In the merged mapping, the record of [t] holds under every key of the
    response that has a sample at [t] the value of that key's last such
    sample. *)
Lemma merge_from_cell res records key samples t v :
  NoDup (dict_keys res) -> (key, samples) ∈ res -> last_at t samples = Some v ->
  row_cell (merge_from res records) t key = Some v.
Proof.
  revert records. unfold dict_keys.
  induction res as [|[key' samples'] res IH]; intros records Hnd Hin Hl.
  - by apply elem_of_nil in Hin.
  - cbn in Hnd. apply NoDup_cons in Hnd as [Hnin Hnd].
    apply elem_of_cons in Hin as [Heq|Hin].
    + inversion Heq; subst key' samples'.
      rewrite merge_from_cons.
      apply merge_from_cell_other; [done|].
      by rewrite add_samples_cell_same, Hl.
    + rewrite merge_from_cons. by apply IH.
Qed.

Lemma merge_cell res key samples t v :
  NoDup (dict_keys res) -> (key, samples) ∈ res -> last_at t samples = Some v ->
  row_cell (merge res) t key = Some v.
Proof. apply merge_from_cell. Qed.

Lemma last_at_is_Some t samples :
  t ∈ s_ts <$> samples -> is_Some (last_at t samples).
Proof.
  induction samples as [|s samples IH]; cbn.
  - by intros ?%elem_of_nil.
  - intros [Heq|Hin]%elem_of_cons.
    + destruct (last_at t samples); [done|]. by rewrite decide_True.
    + destruct (IH Hin) as [v ->]. done.
Qed.

Lemma last_at_elem_of t samples v :
  last_at t samples = Some v -> mkSample t v ∈ samples.
Proof.
  induction samples as [|[ts val] samples IH]; cbn; [done|].
  destruct (last_at t samples) as [v'|].
  - intros [= ->]. apply elem_of_cons. right. by apply IH.
  - case_decide; [|done]. intros [= ->]. subst. apply elem_of_cons. by left.
Qed.

Lemma records_at_absent t records :
  t ∉ dict_keys records -> records_at t records = 0%nat.
Proof.
  unfold records_at, dict_keys.
  induction records as [|[t' r] records IH]; [done|].
  rewrite fmap_cons, not_elem_of_cons. cbn [fst]. intros [Hne Hnin].
  rewrite filter_cons_False by (cbn; congruence). by apply IH.
Qed.

Lemma records_at_NoDup t records row :
  NoDup (dict_keys records) -> dict_get t records = Some row ->
  records_at t records = 1%nat.
Proof.
  unfold records_at, dict_keys.
  induction records as [|[t' r] records IH]; [done|].
  rewrite fmap_cons, NoDup_cons. cbn [dict_get fst]. intros [Hnin Hnd].
  destruct (decide (t' = t)) as [->|Hne].
  - intros _. rewrite filter_cons_True by done.
    cbn [length]. f_equal. by apply records_at_absent.
  - intros Hg. rewrite filter_cons_False by done. by apply IH.
Qed.

(** Samples with fresh, pairwise distinct timestamps each open a record of
    their own, appended in order. *)
Lemma add_samples_fresh key samples records :
  key ≠ "ts"%string ->
  NoDup (s_ts <$> samples) ->
  (forall t, t ∈ s_ts <$> samples -> t ∉ dict_keys records) ->
  add_samples key records samples = records ++ (single_row key <$> samples).
Proof.
  intros Hkey. revert records.
  induction samples as [|s samples IH]; intros records Hnd Hfresh.
  - cbn. by rewrite app_nil_r.
  - cbn in Hnd. apply NoDup_cons in Hnd as [Hnin Hnd].
    rewrite add_samples_cons, add_sample_unfold.
    assert (dict_get (s_ts s) records = None) as ->.
    { apply dict_get_None, Hfresh. cbn. apply elem_of_cons. by left. }
    rewrite IH; [| done |].
    + rewrite <- app_assoc. cbn. unfold single_row at 2.
      by rewrite decide_False by done.
    + intros t Ht. unfold dict_keys. rewrite fmap_app. cbn.
      rewrite elem_of_app, list_elem_of_singleton. intros [Hin| ->].
      * revert Hin. apply Hfresh. cbn. apply elem_of_cons. by right.
      * done.
Qed.

Lemma telemetry_keys_single_row key s :
  key ≠ "ts"%string -> telemetry_keys_of (single_row key s).2 = [key].
Proof.
  intros Hkey. unfold telemetry_keys_of, single_row, dict_keys.
  cbn [snd fst fmap list_fmap].
  rewrite filter_cons_False by (by intros ?).
  by rewrite filter_cons_True.
Qed.

End MergerFacts.

(** C4. In the sample response of the specification the merger builds
    exactly the two stated records, with no [temp] cell at 200.  In general,
    when two different keys of a response both have a sample at [t], the
    merged mapping has exactly one record for [t], and that record holds
    under each of the two keys a value taken from that key's own samples at
    [t] (the last one listed). *)
Theorem C4_shared_timestamp_one_record :
  (merge [("temp"%string, [mkSample 100 (PInt 5)]);
          ("hum"%string, [mkSample 100 (PInt 60); mkSample 200 (PInt 61)])]
   = [(100, [("ts"%string, PInt 100); ("temp"%string, PInt 5);
             ("hum"%string, PInt 60)]);
      (200, [("ts"%string, PInt 200); ("hum"%string, PInt 61)])])
  /\ forall (res : Response) (k1 k2 : string) (s1 s2 : list Sample) (t : Z),
       NoDup (dict_keys res) -> k1 ≠ k2 ->
       (k1, s1) ∈ res -> (k2, s2) ∈ res ->
       t ∈ s_ts <$> s1 -> t ∈ s_ts <$> s2 ->
       exists (row : Row) (v1 v2 : pyval),
         dict_get t (merge res) = Some row
         /\ records_at t (merge res) = 1%nat
         /\ dict_get k1 row = Some v1 /\ dict_get k2 row = Some v2
         /\ last_at t s1 = Some v1 /\ last_at t s2 = Some v2
         /\ mkSample t v1 ∈ s1 /\ mkSample t v2 ∈ s2.
Proof.
  split; [reflexivity|].
  intros res k1 k2 s1 s2 t Hnd Hne Hin1 Hin2 Ht1 Ht2.
  destruct (last_at_is_Some _ _ Ht1) as [v1 Hv1].
  destruct (last_at_is_Some _ _ Ht2) as [v2 Hv2].
  pose proof (merge_cell res k1 s1 t v1 Hnd Hin1 Hv1) as Hc1.
  pose proof (merge_cell res k2 s2 t v2 Hnd Hin2 Hv2) as Hc2.
  unfold row_cell in Hc1, Hc2.
  destruct (dict_get t (merge res)) as [row|] eqn:Hrow; [|done].
  cbn in Hc1, Hc2. exists row, v1, v2.
  split; [done|].
  split; [by eapply records_at_NoDup; [apply merge_NoDup|]|].
  eauto 10 using last_at_elem_of.
Qed.

Lemma C4_witness :
  exists row : Row,
    dict_get 100 (merge [("temp"%string, [mkSample 100 (PInt 5)]);
                         ("hum"%string, [mkSample 100 (PInt 60);
                                         mkSample 200 (PInt 61)])]) = Some row
    /\ dict_get "temp"%string row = Some (PInt 5)
    /\ dict_get "hum"%string row = Some (PInt 60).
Proof.
  destruct (proj2 C4_shared_timestamp_one_record
              [("temp"%string, [mkSample 100 (PInt 5)]);
               ("hum"%string, [mkSample 100 (PInt 60); mkSample 200 (PInt 61)])]
              "temp"%string "hum"%string
              [mkSample 100 (PInt 5)]
              [mkSample 100 (PInt 60); mkSample 200 (PInt 61)] 100)
    as (row & v1 & v2 & Hrow & _ & Hk1 & Hk2 & Hl1 & Hl2 & _).
  - by_compute.
  - done.
  - set_solver.
  - set_solver.
  - set_solver.
  - set_solver.
  - exists row. vm_compute in Hl1, Hl2.
    inversion Hl1; inversion Hl2; subst. done.
Defined.

(** The claim of C5 as written fails in two ways: a list that repeats a
    timestamp yields fewer records than samples, and a key named [ts]
    overwrites the timestamp cell instead of adding a key. *)
Lemma C5_counterexample :
  ~ (forall (k1 k2 : string) (s1 s2 : list Sample),
       k1 ≠ k2 -> (forall t, t ∈ s_ts <$> s1 -> t ∉ s_ts <$> s2) ->
       length (merge [(k1, s1); (k2, s2)]) = (length s1 + length s2)%nat)
  /\ ~ (forall (k1 k2 : string) (s1 s2 : list Sample),
       k1 ≠ k2 -> (forall t, t ∈ s_ts <$> s1 -> t ∉ s_ts <$> s2) ->
       Forall (fun e => length (telemetry_keys_of e.2) = 1%nat)
         (merge [(k1, s1); (k2, s2)])).
Proof.
  split.
  - intros H.
    specialize (H "a"%string "b"%string
                  [mkSample 100 (PInt 1); mkSample 100 (PInt 2)] []
                  ltac:(done) ltac:(set_solver)).
    vm_compute in H. discriminate H.
  - intros H.
    specialize (H "ts"%string "b"%string [mkSample 100 (PInt 1)] []
                  ltac:(done) ltac:(set_solver)).
    vm_compute in H. inversion H as [|? ? Hlen _]. discriminate Hlen.
Qed.

(** C5 (amended). For two different keys, neither named [ts], whose sample
    lists each have pairwise distinct timestamps and share no timestamp,
    the merger yields one record per sample: the record count is the sum of
    the two lengths and every record has exactly one telemetry key besides
    [ts]. *)
Theorem C5_disjoint_merge (k1 k2 : string) (s1 s2 : list Sample) :
  k1 ≠ k2 -> k1 ≠ "ts"%string -> k2 ≠ "ts"%string ->
  NoDup (s_ts <$> s1) -> NoDup (s_ts <$> s2) ->
  (forall t, t ∈ s_ts <$> s1 -> t ∉ s_ts <$> s2) ->
  merge [(k1, s1); (k2, s2)] = (single_row k1 <$> s1) ++ (single_row k2 <$> s2)
  /\ length (merge [(k1, s1); (k2, s2)]) = (length s1 + length s2)%nat
  /\ Forall (fun e => length (telemetry_keys_of e.2) = 1%nat)
       (merge [(k1, s1); (k2, s2)]).
Proof.
  intros Hne Hk1 Hk2 Hnd1 Hnd2 Hdisj.
  assert (merge [(k1, s1); (k2, s2)]
          = (single_row k1 <$> s1) ++ (single_row k2 <$> s2)) as Heq.
  { unfold merge. rewrite !merge_from_cons. cbn [merge_from fold_left].
    rewrite (add_samples_fresh k1 s1 []) by (done || intros; apply not_elem_of_nil).
    cbn [app]. rewrite add_samples_fresh; [done..|].
    intros t Ht2 Ht1. unfold dict_keys in Ht1.
    rewrite <- list_fmap_compose in Ht1. by apply (Hdisj t). }
  split; [done|]. rewrite Heq. split.
  - by rewrite length_app, !length_fmap.
  - apply Forall_app. split; apply Forall_fmap, Forall_forall; intros s _;
      unfold compose; by rewrite telemetry_keys_single_row.
Qed.

Lemma C5_witness :
  length (merge [("temp"%string, [mkSample 100 (PInt 5); mkSample 300 (PInt 6)]);
                 ("hum"%string, [mkSample 200 (PInt 61)])]) = 3%nat.
Proof.
  apply (C5_disjoint_merge "temp" "hum"
           [mkSample 100 (PInt 5); mkSample 300 (PInt 6)]
           [mkSample 200 (PInt 61)]); try done.
  - by_compute.
  - by_compute.
  - intros t Ht Ht'. apply list_elem_of_In in Ht, Ht'. cbn in Ht, Ht'. lia.
Defined.

(** ** Data frames *)

Section FrameFacts.

Implicit Types (df : DataFrame) (records : Records) (rs : list Row).

Lemma elem_of_index_union l k (c : string) :
  c ∈ index_union l k <-> c ∈ l \/ c ∈ k.
Proof.
  unfold index_union. rewrite elem_of_app, list_elem_of_difference.
  destruct (decide (c ∈ l)); naive_solver.
Qed.

Lemma from_records_columns_from rs cols (c : string) :
  c ∈ fold_left (fun cols r => index_union cols (dict_keys r)) rs cols
  <-> c ∈ cols \/ exists r, r ∈ rs /\ c ∈ dict_keys r.
Proof.
  revert cols. induction rs as [|r rs IH]; intros cols; cbn [fold_left].
  - split; [by left|]. intros [?|(r & Hr & _)]; [done|].
    by apply elem_of_nil in Hr.
  - rewrite IH, elem_of_index_union. split.
    + intros [[?|?]|(r' & Hr' & Hc)]; [by left| |].
      * right. exists r. split; [apply elem_of_cons; by left|done].
      * right. exists r'. split; [apply elem_of_cons; by right|done].
    + intros [?|(r' & Hr' & Hc)]; [by left; left|].
      apply elem_of_cons in Hr' as [->|Hr']; [by left; right|].
      right. by exists r'.
Qed.

Lemma from_records_columns rs (c : string) :
  c ∈ columns (from_records rs) <-> exists r, r ∈ rs /\ c ∈ dict_keys r.
Proof.
  unfold from_records. cbn [columns]. rewrite from_records_columns_from.
  split; [|by right]. intros [Hnil|?]; [|done]. by apply elem_of_nil in Hnil.
Qed.

Lemma append_records_rows df records :
  rows (append_records df records) = rows df ++ dict_values records.
Proof.
  unfold append_records. case_decide as Hlen; [done|].
  destruct records; [|cbn in Hlen; lia]. cbn. by rewrite app_nil_r.
Qed.

Lemma append_records_columns df records (c : string) :
  c ∈ columns (append_records df records)
  <-> c ∈ columns df \/ exists r, r ∈ dict_values records /\ c ∈ dict_keys r.
Proof.
  unfold append_records. case_decide as Hlen.
  - cbn [concat columns]. by rewrite elem_of_index_union, from_records_columns.
  - destruct records; [|cbn in Hlen; lia]. split; [by left|].
    intros [?|(r & Hr & _)]; [done|]. by apply elem_of_nil in Hr.
Qed.

(** Appending batches is concatenation of their rows, in batch order. *)
Lemma accumulate_rows df (batch_records : list Records) :
  rows (accumulate df batch_records)
  = rows df ++ mjoin (dict_values <$> batch_records).
Proof.
  revert df. unfold accumulate.
  induction batch_records as [|records bs IH]; intros df; cbn [fold_left].
  - cbn. by rewrite app_nil_r.
  - rewrite IH, append_records_rows. cbn. by rewrite app_assoc.
Qed.

(** The columns of the accumulated table: those of the initial frame and
    every key bound in an appended row. *)
Lemma accumulate_columns df (batch_records : list Records) (c : string) :
  c ∈ columns (accumulate df batch_records)
  <-> c ∈ columns df
      \/ exists r, r ∈ mjoin (dict_values <$> batch_records) /\ c ∈ dict_keys r.
Proof.
  revert df. unfold accumulate.
  induction batch_records as [|records bs IH]; intros df; cbn [fold_left].
  - split; [by left|]. intros [?|(r & Hr & _)]; [done|].
    by apply elem_of_nil in Hr.
  - rewrite IH, append_records_columns. cbn [fmap list_fmap mjoin list_join].
    setoid_rewrite elem_of_app. naive_solver.
Qed.

Lemma join_cons {A} (l : list A) (ls : list (list A)) :
  mjoin (l :: ls) = l ++ mjoin ls.
Proof. reflexivity. Qed.


End FrameFacts.




(** ** The final sort *)

Lemma filter_all {A} (P : A -> Prop) `{!forall x, Decision (P x)} (l : list A) :
  Forall P l -> filter P l = l.
Proof.
  induction 1 as [|x l Hx _ IH]; [done|].
  rewrite filter_cons_True by done. by rewrite IH.
Qed.

Lemma filter_none {A} (P : A -> Prop) `{!forall x, Decision (P x)} (l : list A) :
  Forall P l -> filter (fun x => ~ P x) l = [].
Proof.
  induction 1 as [|x l Hx _ IH]; [done|].
  rewrite filter_cons_False by tauto. by rewrite IH.
Qed.

Lemma filter_nothing {A} (P : A -> Prop) `{!forall x, Decision (P x)}
    (l : list A) :
  Forall (fun x => ~ P x) l -> filter P l = [].
Proof.
  induction 1 as [|x l Hx _ IH]; [done|].
  rewrite filter_cons_False by done. by rewrite IH.
Qed.

Lemma occurs_once {A} `{EqDecision A} (x : A) (l : list A) :
  NoDup l -> x ∈ l -> length (filter (fun c => c = x) l) = 1%nat.
Proof.
  induction 1 as [|y l Hy Hnd IH]; intros Hin; [by apply elem_of_nil in Hin|].
  apply elem_of_cons in Hin as [->|Hin].
  - rewrite filter_cons_True by done. cbn. f_equal.
    apply length_zero_iff_nil. apply filter_nothing.
    apply Forall_forall. intros c Hc ->. done.
  - rewrite filter_cons_False by (intros ->; done). by apply IH.
Qed.

Section SortFacts.

Variable col : string.

#[local] Instance row_le_total : Total (row_le col).
Proof. intros r1 r2. unfold row_le. lia. Qed.

#[local] Instance row_le_trans : Transitive (row_le col).
Proof. intros r1 r2 r3. unfold row_le. lia. Qed.

Lemma int_cell_has_cell (r : Row) : is_Some (int_cell col r) -> has_cell col r.
Proof.
  unfold int_cell, has_cell. destruct (dict_get col r); [done|].
  by intros [? ?].
Qed.

(** On a column of integers the rows are ordered by their values. *)
Lemma sort_rows_int (rs : list Row) :
  Forall (fun r => is_Some (int_cell col r)) rs ->
  sort_rows col rs = Ok (merge_sort (row_le col) rs).
Proof.
  intros Hint. unfold sort_rows.
  assert (Forall (has_cell col) rs) as Hhas
    by (eapply Forall_impl; [done|apply int_cell_has_cell]).
  rewrite (filter_all _ _ Hhas), (filter_none _ _ Hhas), app_nil_r.
  assert (forallb (fun r => bool_decide (is_Some (int_cell col r))) rs
          = true) as ->; [|done].
  apply forallb_forall. intros r Hr%list_elem_of_In.
  apply bool_decide_eq_true. rewrite Forall_forall in Hint. by apply Hint.
Qed.

(** The sort rearranges the rows. *)
Lemma sort_rows_Permutation (rs rs' : list Row) :
  sort_rows col rs = Ok rs' -> rs' ≡ₚ rs.
Proof.
  unfold sort_rows.
  destruct (forallb _ _); [|destruct (forallb _ _); [|done]];
    intros [= <-]; rewrite merge_sort_Permutation;
    apply filter_app_complement.
Qed.

(** A sorted frame has its rows rearranged and its columns unchanged; the
    label names one of the columns. *)
Lemma sort_values_spec df table :
  sort_values col df = Ok table ->
  columns table = columns df /\ rows table ≡ₚ rows df /\ col ∈ columns df.
Proof.
  unfold sort_values.
  destruct (filter _ (columns df)) as [|c [|c' l]] eqn:Hf; [done| |done].
  cbn [length]. destruct (sort_rows col (rows df)) as [rs|e|] eqn:Hs; [|done..].
  cbn. intros [= <-]. cbn [columns rows]. split; [done|].
  split; [by apply sort_rows_Permutation|].
  assert (c ∈ filter (fun c => c = col) (columns df)) as Hc
    by (rewrite Hf; apply list_elem_of_here).
  apply list_elem_of_filter in Hc as [-> ?]. done.
Qed.

(** On a column of integers, named once, the sort succeeds; its [col] cells
    ascend. *)
Lemma sort_values_int df :
  length (filter (fun c => c = col) (columns df)) = 1%nat ->
  Forall (fun r => is_Some (int_cell col r)) (rows df) ->
  sort_values col df
  = Ok (mkDataFrame (columns df) (merge_sort (row_le col) (rows df))).
Proof.
  intros Hone Hint. unfold sort_values. rewrite Hone.
  by rewrite sort_rows_int.
Qed.

Lemma merge_sort_int_sorted (rs : list Row) :
  Sorted Z.le (sort_key col <$> merge_sort (row_le col) rs).
Proof.
  apply (Sorted_fmap _ (row_le col)); [done|]. apply (Sorted_merge_sort _).
Qed.

Lemma int_cell_sort_key (r : Row) :
  is_Some (int_cell col r) -> dict_get col r = Some (PInt (sort_key col r)).
Proof.
  intros [z Hz]. unfold sort_key. rewrite Hz. cbn. unfold int_cell in Hz.
  destruct (dict_get col r) as [[z'|s]|]; by inversion Hz.
Qed.

Lemma sort_values_int_spec df table :
  Forall (fun r => is_Some (int_cell col r)) (rows df) ->
  sort_values col df = Ok table ->
  columns table = columns df
  /\ rows table ≡ₚ rows df
  /\ Sorted Z.le (int_column col table)
  /\ Forall (fun r => dict_get col r = Some (PInt (sort_key col r))) (rows table).
Proof.
  intros Hint Hsort.
  pose proof (sort_values_spec _ _ Hsort) as (Hcols & Hperm & _).
  do 2 (split; [done|]).
  revert Hsort. unfold sort_values.
  destruct (filter _ (columns df)) as [|c [|c' l]]; [done| |done].
  cbn [length]. rewrite sort_rows_int by done. cbn. intros [= <-].
  cbn [rows] in *. split.
  - unfold int_column. cbn [rows]. apply merge_sort_int_sorted.
  - rewrite merge_sort_Permutation. eapply Forall_impl; [done|].
    apply int_cell_sort_key.
Qed.

(** The sorted column depends only on the multiset of rows. *)
Lemma sort_values_column_unique df1 df2 t1 t2 :
  Forall (fun r => is_Some (int_cell col r)) (rows df1) ->
  rows df1 ≡ₚ rows df2 ->
  sort_values col df1 = Ok t1 -> sort_values col df2 = Ok t2 ->
  int_column col t1 = int_column col t2.
Proof.
  intros Hint Hperm H1 H2.
  assert (Forall (fun r => is_Some (int_cell col r)) (rows df2)) as Hint2
    by by rewrite <- Hperm.
  apply sort_values_int_spec in H1 as (_ & Hp1 & Hs1 & _); [|done].
  apply sort_values_int_spec in H2 as (_ & Hp2 & Hs2 & _); [|done].
  apply (Sorted_unique Z.le); [done..|].
  unfold int_column. by rewrite Hp1, Hp2, Hperm.
Qed.

End SortFacts.

(** ** The append step and its failure *)

Lemma index_union_NoDup (l k : list string) :
  NoDup l -> NoDup k -> NoDup (index_union l k).
Proof.
  intros Hl Hk. unfold index_union. apply NoDup_app. split; [done|].
  split; [|by apply NoDup_list_difference].
  intros x Hx Hd. apply list_elem_of_difference in Hd as [_ Hd]. done.
Qed.

Lemma from_records_NoDup (rs : list Row) :
  Forall (fun r => NoDup (dict_keys r)) rs -> NoDup (columns (from_records rs)).
Proof.
  unfold from_records. cbn [columns].
  assert (NoDup (@nil string)) as Hnil by apply NoDup_nil_2.
  revert Hnil. generalize (@nil string) as cols.
  induction rs as [|r rs IH]; intros cols Hcols Hrs; [done|].
  apply Forall_cons in Hrs as [Hr Hrs]. cbn [fold_left].
  apply IH; [|done]. by apply index_union_NoDup.
Qed.

(** A step that does not raise is the plain step. *)
Lemma append_step_Ok df records table :
  append_step df records = Ok table -> table = append_records df records.
Proof.
  unfold append_step.
  destruct (if decide _ then _ else _); [done|]. by intros [= <-].
Qed.

(** With distinct column names, and rows that are dictionaries, the step
    does not raise and leaves distinct column names. *)
Lemma append_step_NoDup df (records : Records) :
  NoDup (columns df) ->
  Forall (fun r => NoDup (dict_keys r)) (dict_values records) ->
  append_step df records = Ok (append_records df records)
  /\ NoDup (columns (append_records df records)).
Proof.
  intros Hdf Hrows. pose proof (from_records_NoDup _ Hrows) as Hpart.
  unfold append_step, append_records, concat_error.
  destruct (decide (0 < length records)%nat); [|done].
  rewrite decide_True by (by right). split; [done|].
  cbn [concat columns]. by apply index_union_NoDup.
Qed.

Lemma accumulate_steps_Ok df (batch_records : list Records) table :
  accumulate_steps df batch_records = Ok table ->
  table = accumulate df batch_records.
Proof.
  revert df. unfold accumulate.
  induction batch_records as [|records bs IH]; intros df; cbn.
  - by intros [= <-].
  - destruct (append_step df records) as [df'|e|] eqn:Hstep; [|done..].
    cbn. apply append_step_Ok in Hstep as ->. apply IH.
Qed.

Lemma accumulate_steps_NoDup df (batch_records : list Records) :
  NoDup (columns df) ->
  Forall (fun records =>
            Forall (fun r => NoDup (dict_keys r)) (dict_values records))
    batch_records ->
  accumulate_steps df batch_records = Ok (accumulate df batch_records)
  /\ NoDup (columns (accumulate df batch_records)).
Proof.
  revert df. unfold accumulate.
  induction batch_records as [|records bs IH]; intros df Hdf Hbs; [done|].
  apply Forall_cons in Hbs as [Hrows Hbs].
  destruct (append_step_NoDup df records Hdf Hrows) as [Hstep Hnd].
  cbn. rewrite Hstep. cbn. by apply IH.
Qed.

(** ** Records that carry their timestamp *)

Lemma dict_set_NoDup {K V} `{EqDecision K} (d : list (K * V)) k v :
  NoDup (dict_keys d) -> NoDup (dict_keys (dict_set k v d)).
Proof.
  intros Hnd. destruct (decide (k ∈ dict_keys d)) as [Hin|Hnin].
  - by rewrite dict_keys_set_old.
  - rewrite dict_set_new by done. unfold dict_keys in *. rewrite fmap_app.
    apply NoDup_app. split; [done|]. split; [|apply NoDup_singleton].
    intros x Hx ->%list_elem_of_singleton. done.
Qed.

Lemma dict_get_Some_elem_of {K V} `{EqDecision K} (d : list (K * V)) k v :
  dict_get k d = Some v -> (k, v) ∈ d.
Proof.
  induction d as [|[k' v'] d IH]; cbn; [done|]. case_decide.
  - intros [= ->]. subst k'. apply list_elem_of_here.
  - intros ?. apply list_elem_of_further. by apply IH.
Qed.

Lemma dict_set_Forall {K V} `{EqDecision K} (P : K * V -> Prop)
    (d : list (K * V)) k v :
  Forall P d -> P (k, v) -> Forall P (dict_set k v d).
Proof.
  intros Hd Hkv. induction Hd as [|[k' v'] d Hx Hd IH]; cbn.
  - by apply Forall_singleton.
  - case_decide; apply Forall_cons; split; try done. by subst.
Qed.

Lemma add_sample_stamped key records s :
  key ≠ "ts"%string -> stamped records -> stamped (add_sample key records s).
Proof.
  intros Hne Hinv t row. rewrite add_sample_get. case_decide as Ht.
  - intros [= <-]. rewrite dict_get_set_ne by done.
    specialize (Hinv t). destruct (dict_get t records) as [row|]; cbn.
    + by apply Hinv.
    + by rewrite decide_True.
  - apply Hinv.
Qed.

Lemma add_samples_stamped key samples records :
  key ≠ "ts"%string -> stamped records -> stamped (add_samples key records samples).
Proof.
  intros Hne. revert records.
  induction samples as [|s samples IH]; intros records Hinv; [done|].
  rewrite add_samples_cons. by apply IH, add_sample_stamped.
Qed.

Lemma merge_from_stamped res records :
  "ts"%string ∉ dict_keys res -> stamped records -> stamped (merge_from res records).
Proof.
  revert records. unfold dict_keys.
  induction res as [|[key samples] res IH]; intros records Hts Hinv; [done|].
  cbn in Hts. apply not_elem_of_cons in Hts as [Hne Hts].
  rewrite merge_from_cons. apply IH; [done|]. by apply add_samples_stamped.
Qed.

(** Every record the merger builds is a dictionary. *)
Lemma add_sample_rows_dicts key (records : Records) s :
  Forall (fun e => NoDup (dict_keys e.2)) records ->
  Forall (fun e => NoDup (dict_keys e.2)) (add_sample key records s).
Proof.
  intros Hinv. rewrite add_sample_unfold.
  destruct (dict_get (s_ts s) records) as [row|] eqn:Hg.
  - apply dict_set_Forall; [done|]. cbn. apply dict_set_NoDup.
    apply dict_get_Some_elem_of in Hg. rewrite Forall_forall in Hinv.
    by apply (Hinv _ Hg).
  - apply Forall_app. split; [done|]. apply Forall_singleton. cbn -[dict_set].
    apply dict_set_NoDup. cbn. apply NoDup_singleton.
Qed.

Lemma add_samples_rows_dicts key samples (records : Records) :
  Forall (fun e => NoDup (dict_keys e.2)) records ->
  Forall (fun e => NoDup (dict_keys e.2)) (add_samples key records samples).
Proof.
  revert records.
  induction samples as [|s samples IH]; intros records Hinv; [done|].
  rewrite add_samples_cons. by apply IH, add_sample_rows_dicts.
Qed.

Lemma merge_from_rows_dicts res (records : Records) :
  Forall (fun e => NoDup (dict_keys e.2)) records ->
  Forall (fun e => NoDup (dict_keys e.2)) (merge_from res records).
Proof.
  revert records.
  induction res as [|[key samples] res IH]; intros records Hinv; [done|].
  rewrite merge_from_cons. by apply IH, add_samples_rows_dicts.
Qed.

(** The mapping the merger builds from a response without a key named [ts]
    carries its timestamps. *)
Lemma merge_timestamped (res : Response) :
  "ts"%string ∉ dict_keys res -> timestamped (merge res).
Proof.
  intros Hts. split; [apply merge_NoDup|].
  assert (stamped (merge res)) as Hinv
    by (apply merge_from_stamped; [done|by intros ? ?]).
  pose proof (merge_from_rows_dicts res [] (Forall_nil_2 _)) as Hd.
  rewrite Forall_forall in Hd. apply Forall_forall. intros [t row] Hin.
  split; [by apply (Hd _ Hin)|]. cbn. apply Hinv.
  by apply dict_get_elem_of; [apply merge_NoDup|].
Qed.

Lemma timestamped_int_ts (records : Records) :
  timestamped records ->
  Forall (fun r => is_Some (int_cell "ts" r)) (dict_values records).
Proof.
  intros [_ Hrows]. unfold dict_values. apply Forall_fmap.
  eapply Forall_impl; [done|]. intros [t row] [_ Hts]. cbn in *.
  unfold int_cell. by rewrite Hts.
Qed.

Lemma timestamped_dicts (records : Records) :
  timestamped records ->
  Forall (fun r => NoDup (dict_keys r)) (dict_values records).
Proof.
  intros [_ Hrows]. unfold dict_values. apply Forall_fmap.
  eapply Forall_impl; [done|]. by intros [t row] [? _].
Qed.

Lemma timestamped_keys (records : Records) :
  timestamped records ->
  sort_key "ts" <$> dict_values records = dict_keys records.
Proof.
  intros [_ Hrows]. unfold dict_values, dict_keys.
  induction Hrows as [|[t row] records [_ Hts] _ IH]; [done|].
  cbn [fmap list_fmap]. f_equal; [|done].
  cbn [snd fst] in *. unfold sort_key, int_cell. by rewrite Hts.
Qed.

(** Rows produced by the merger carry their integer timestamp in [ts],
    provided no telemetry key of the response is itself named [ts]. *)
Lemma merge_rows_int_ts (res : Response) :
  "ts"%string ∉ dict_keys res ->
  Forall (fun r => is_Some (int_cell "ts" r)) (dict_values (merge res)).
Proof. intros Hts. by apply timestamped_int_ts, merge_timestamped. Qed.

Lemma record_timestamps_rows (batch_records : list Records) :
  Forall timestamped batch_records ->
  sort_key "ts" <$> mjoin (dict_values <$> batch_records)
  = record_timestamps batch_records.
Proof.
  unfold record_timestamps.
  induction 1 as [|records bs Hr _ IH]; [done|].
  rewrite !fmap_cons, !join_cons, fmap_app, timestamped_keys by done.
  by rewrite IH.
Qed.

Lemma accumulate_int_ts cols (batch_records : list Records) :
  Forall timestamped batch_records ->
  Forall (fun r => is_Some (int_cell "ts" r))
    (rows (accumulate (new_frame cols) batch_records)).
Proof.
  intros Hbs. rewrite accumulate_rows. cbn [new_frame rows app].
  induction Hbs as [|records bs Hr _ IH]; [done|].
  rewrite fmap_cons, join_cons. apply Forall_app. split; [|done].
  by apply timestamped_int_ts.
Qed.

(** The table of per-batch mappings that carry their timestamps sorts. *)
Lemma sorted_table_timestamped (cols : list string)
    (batch_records : list Records) :
  NoDup cols -> "ts"%string ∈ cols ->
  Forall timestamped batch_records ->
  sorted_table cols batch_records
  = Ok (mkDataFrame (columns (accumulate (new_frame cols) batch_records))
          (merge_sort (row_le "ts")
             (mjoin (dict_values <$> batch_records)))).
Proof.
  intros Hnd Hts Hbs. unfold sorted_table.
  destruct (accumulate_steps_NoDup (new_frame cols) batch_records)
    as [-> Hcols]; [done| |].
  { eapply Forall_impl; [done|]. apply timestamped_dicts. }
  cbn. rewrite sort_values_int.
  - rewrite accumulate_rows. done.
  - apply occurs_once; [done|]. apply accumulate_columns. by left.
  - by apply accumulate_int_ts.
Qed.

(** The claim of C7 as written fails in two ways.  A frame whose column
    names repeat (the device reports a key named [ts], beside [temp]) cannot
    take the first non-empty batch: the concatenation raises and there is no
    table.  And when the records do not carry their timestamp in the [ts]
    cell, the table that is sorted by that cell is not in the order of the
    timestamps the records were merged under. *)
Lemma C7_counterexample :
  ~ (forall (cols : list string) (batch_records : list Records),
       Forall timestamped batch_records ->
       exists table : DataFrame, sorted_table cols batch_records = Ok table)
  /\ ~ (forall (cols : list string) (batch_records : list Records)
          (table : DataFrame),
          NoDup cols -> "ts"%string ∈ cols ->
          sorted_table cols batch_records = Ok table ->
          exists l : list (Z * Row),
            l ≡ₚ mjoin batch_records /\ rows table = l.*2
            /\ Sorted Z.le l.*1).
Proof.
  split.
  - intros H.
    destruct (H ["ts"; "ts"; "temp"]%string
                [merge [("temp"%string, [mkSample 100 (PInt 5)])]])
      as [table Htable].
    + apply Forall_singleton. apply merge_timestamped. by_compute.
    + vm_compute in Htable. discriminate Htable.
  - intros H.
    destruct (H ["ts"%string]
                [merge [("ts"%string, [mkSample 100 (PInt 9)])];
                 merge [("ts"%string, [mkSample 200 (PInt 1)])]]
                (mkDataFrame ["ts"%string]
                   [[("ts"%string, PInt 1)]; [("ts"%string, PInt 9)]]))
      as (l & Hperm & Hrows & Hsorted).
    + apply NoDup_singleton.
    + apply list_elem_of_singleton. done.
    + vm_compute. reflexivity.
    + change (mjoin _) with
        [(100, [("ts"%string, PInt 9)]); (200, [("ts"%string, PInt 1)])]
        in Hperm.
      symmetry in Hperm. apply Permutation_length_2_inv in Hperm.
      destruct Hperm as [-> | ->]; cbn in *.
      * discriminate Hrows.
      * apply Sorted_inv in Hsorted as [_ Hhd].
        apply HdRel_inv in Hhd. lia.
Qed.

(** C7, amended.  For a table whose column names are distinct and include
    [ts], and per-batch mappings whose records carry their timestamp (as the
    merger builds them from responses without a key named [ts]): appending
    the batches and then sorting by [ts] succeeds; the timestamps of the
    table ascend; they are the timestamps of the appended records, each
    record once; and appending the same batches in any other order gives the
    same sequence of timestamps after the sort. *)
Theorem C7_sorted_after_final_sort (cols : list string)
    (batch_records : list Records) :
  NoDup cols -> "ts"%string ∈ cols ->
  Forall timestamped batch_records ->
  exists table : DataFrame,
    sorted_table cols batch_records = Ok table
    /\ Sorted Z.le (int_column "ts" table)
    /\ Forall (fun r => dict_get "ts"%string r = Some (PInt (sort_key "ts" r)))
         (rows table)
    /\ int_column "ts" table ≡ₚ record_timestamps batch_records
    /\ forall batch_records' : list Records,
         batch_records' ≡ₚ batch_records ->
         exists table' : DataFrame,
           sorted_table cols batch_records' = Ok table'
           /\ Sorted Z.le (int_column "ts" table')
           /\ int_column "ts" table' = int_column "ts" table.
Proof.
  intros Hnd Hts Hbs.
  assert (forall bs : list Records, Forall timestamped bs ->
            let table := mkDataFrame (columns (accumulate (new_frame cols) bs))
                           (merge_sort (row_le "ts")
                              (mjoin (dict_values <$> bs))) in
            sorted_table cols bs = Ok table
            /\ Sorted Z.le (int_column "ts" table)
            /\ Forall (fun r => dict_get "ts"%string r
                                = Some (PInt (sort_key "ts" r))) (rows table)
            /\ int_column "ts" table ≡ₚ record_timestamps bs) as Hone.
  { intros bs Hb table. split; [by apply sorted_table_timestamped|].
    unfold int_column, table. cbn [rows]. split; [apply merge_sort_int_sorted|].
    split.
    - rewrite merge_sort_Permutation.
      pose proof (accumulate_int_ts cols bs Hb) as Hint.
      rewrite accumulate_rows in Hint. cbn [new_frame rows app] in Hint.
      eapply Forall_impl; [done|]. apply int_cell_sort_key.
    - rewrite merge_sort_Permutation. by rewrite record_timestamps_rows. }
  destruct (Hone batch_records Hbs) as (Hok & Hsorted & Hcells & Hperm).
  eexists. split; [exact Hok|]. do 3 (split; [done|]).
  intros bs' Hbs'.
  assert (Forall timestamped bs') as Hb' by by rewrite Hbs'.
  destruct (Hone bs' Hb') as (Hok' & Hsorted' & _ & Hperm').
  eexists. split; [exact Hok'|]. split; [done|].
  apply (Sorted_unique Z.le); [done..|].
  rewrite Hperm, Hperm'. unfold record_timestamps. by rewrite Hbs'.
Qed.

(** Two batches appended in reverse order of time: the table is sorted. *)
Lemma C7_witness :
  exists table : DataFrame,
    sorted_table ["ts"; "temp"]%string
      [merge [("temp"%string, [mkSample 200 (PInt 2)])];
       merge [("temp"%string, [mkSample 100 (PInt 1)])]] = Ok table
    /\ int_column "ts" table = [100; 200].
Proof.
  destruct (C7_sorted_after_final_sort ["ts"; "temp"]%string
              [merge [("temp"%string, [mkSample 200 (PInt 2)])];
               merge [("temp"%string, [mkSample 100 (PInt 1)])]])
    as (table & Hok & _).
  - repeat constructor; by_compute.
  - by_compute.
  - repeat constructor; by_compute.
  - exists table. split; [exact Hok|].
    vm_compute in Hok. injection Hok as <-. reflexivity.
Defined.
(** ** Telemetry Exporter *)

Lemma batch_window_pos : 0 < batch_window.
Proof. done. Qed.

Section ExporterFacts.

Variables (lib : Library) (tb : RestClient) (args : Args).

Lemma process_device_eq fuel st device T0 T1 df :
  fromisoformat lib (start_time args) = Some T0 ->
  fromisoformat lib (end_time args) = Some T1 ->
  device_table fuel lib tb device
    (select_keys (keys args) (get_timeseries_keys tb device)) T0 T1 = Ok df ->
  process_device fuel lib tb args st device
  = if decide (len df = 0%nat) then Ok (skipped_state tb args st device T0 T1)
    else df' ← sort_values "ts" df;
         _ ← write_table lib (output_format args) df';
         Ok (saved_state lib tb args st device T0 T1 df').
Proof.
  intros H0 H1 Hdf. unfold process_device. rewrite H0, H1. cbn.
  rewrite Hdf. cbn. case_decide; done.
Qed.

Lemma process_device_Ok fuel st device st' :
  process_device fuel lib tb args st device = Ok st' ->
  exists T0 T1 df,
    fromisoformat lib (start_time args) = Some T0
    /\ fromisoformat lib (end_time args) = Some T1
    /\ device_table fuel lib tb device
         (select_keys (keys args) (get_timeseries_keys tb device)) T0 T1
       = Ok df
    /\ ((len df = 0%nat /\ st' = skipped_state tb args st device T0 T1)
        \/ (len df ≠ 0%nat
            /\ exists df', sort_values "ts" df = Ok df'
                           /\ write_table lib (output_format args) df' = Ok tt
                           /\ st' = saved_state lib tb args st device T0 T1 df')).
Proof.
  intros Hp.
  destruct (fromisoformat lib (start_time args)) as [T0|] eqn:H0;
    [|by unfold process_device in Hp; rewrite H0 in Hp].
  destruct (fromisoformat lib (end_time args)) as [T1|] eqn:H1;
    [|by unfold process_device in Hp; rewrite H0, H1 in Hp].
  destruct (device_table fuel lib tb device
              (select_keys (keys args) (get_timeseries_keys tb device)) T0 T1)
    as [df|e|] eqn:Hdf;
    [|by unfold process_device in Hp; rewrite H0, H1 in Hp; cbn in Hp;
         rewrite Hdf in Hp..].
  rewrite (process_device_eq _ _ _ _ _ _ H0 H1 Hdf) in Hp.
  exists T0, T1, df. do 3 (split; [done|]).
  case_decide as Hlen.
  - left. by inversion Hp.
  - right. split; [done|].
    destruct (sort_values "ts" df) as [df'|e|]; [|done..].
    cbn in Hp.
    destruct (write_table lib (output_format args) df') as [[]|e|] eqn:Hw;
      [|done..].
    exists df'. by inversion Hp.
Qed.

(** The body of the loop run over a list of windows is the fold of the
    append steps over the mappings fetched for them. *)
Lemma run_export_batch_eq device telemetry_keys (bs : list Batch) df :
  run_body (export_batch lib tb device telemetry_keys) bs df
  = accumulate_steps df (fetch_records lib tb device telemetry_keys <$> bs).
Proof.
  revert df. induction bs as [|w bs IH]; intros df; [reflexivity|].
  cbn. unfold export_batch in *.
  destruct (append_step df _) as [df'|e|]; [|done..]. cbn. apply IH.
Qed.

(** The table of a device is the accumulation of the mappings fetched for
    the planned windows, for every run of the loop that reaches its exit. *)
Lemma device_table_steps fuel device telemetry_keys T0 T1 df :
  device_table fuel lib tb device telemetry_keys T0 T1 = Ok df ->
  accumulate_steps (new_frame ("ts"%string :: telemetry_keys))
    (fetch_records lib tb device telemetry_keys <$> batches batch_window T0 T1)
  = Ok df.
Proof.
  unfold device_table. intros Hloop.
  apply (batch_loop_Ok _ _ _ batch_window_pos) in Hloop.
  by rewrite <- run_export_batch_eq.
Qed.

Lemma device_table_Ok fuel device telemetry_keys T0 T1 df :
  device_table fuel lib tb device telemetry_keys T0 T1 = Ok df ->
  df = accumulate (new_frame ("ts"%string :: telemetry_keys))
         (fetch_records lib tb device telemetry_keys
            <$> batches batch_window T0 T1).
Proof. by intros Hdf%device_table_steps%accumulate_steps_Ok. Qed.

(** With two datetimes of one kind, a range the loop can walk and enough
    fuel, the loop is the fold of its steps over the planned windows. *)
Lemma device_table_enough fuel device telemetry_keys T0 T1 :
  same_kind T0 T1 -> walkable batch_window T0 T1 ->
  (batch_count batch_window T0 T1 <= fuel)%nat ->
  device_table fuel lib tb device telemetry_keys T0 T1
  = accumulate_steps (new_frame ("ts"%string :: telemetry_keys))
      (fetch_records lib tb device telemetry_keys
         <$> batches batch_window T0 T1).
Proof.
  intros Hkind Hwalk Hfuel. unfold device_table.
  rewrite (batch_loop_enough _ _ _ batch_window_pos) by done.
  apply run_export_batch_eq.
Qed.

(** The device loop never touches the run-wide metadata list, and leaves
    in [meta] the entry of the device it processed last. *)
Lemma for_devices_meta fuel device_ids st st' :
  for_devices fuel lib tb args device_ids st = Ok st' ->
  st_all_meta st' = st_all_meta st
  /\ match last device_ids with
     | None => st' = st
     | Some device => exists m, st_meta st' = Some m /\ device_id m = device
     end.
Proof.
  revert st. induction device_ids as [|device rest IH]; intros st; cbn.
  - by intros [= <-].
  - destruct (process_device fuel lib tb args st device) as [st1| |] eqn:Hp;
      [|done..].
    cbn. intros Hrest. destruct (IH _ Hrest) as [Hall Hlast].
    apply process_device_Ok in Hp
      as (T0 & T1 & df & _ & _ & _ & [[_ ->]|(_ & df' & _ & _ & ->)]).
    + split; [done|]. rewrite last_cons.
      destruct (last rest); [done|]. subst st'. by eexists.
    + split; [done|]. rewrite last_cons.
      destruct (last rest); [done|]. subst st'. by eexists.
Qed.

End ExporterFacts.

(** The claim of C6 as written fails: [dev1] exports the keys [temp] and
    [hum] but has samples of [temp] only, and the table written for it
    still has the column [hum], which no record of the table holds. *)
Lemma C6_counterexample :
  ~ (forall fuel lib tb args st device st' name fmt df,
       process_device fuel lib tb args st device = Ok st' ->
       (name, TableFile fmt df) ∈ st_files st' ->
       forall c : string,
         c ∈ columns df
         <-> c = "ts"%string \/ exists r, r ∈ rows df /\ c ∈ telemetry_keys_of r).
Proof.
  intros H.
  set (df := mkDataFrame ["ts"; "temp"; "hum"]%string
               [[("ts"%string, PInt 1672531200000); ("temp"%string, PInt 5)]]).
  assert (process_device 1 demo_lib demo_tb demo_args empty_state "dev1"
          = Ok (saved_state demo_lib demo_tb demo_args empty_state "dev1"
                  jan1 jan2 df)) as Hrun by (vm_compute; reflexivity).
  specialize (H _ _ _ _ _ _ _ "2023-01-01_2023-01-02_dev1.csv"%string Csv df Hrun
                ltac:(vm_compute; apply elem_of_cons; by left) "hum"%string).
  destruct (proj1 H ltac:(by_compute)) as [Hts|(r & Hr & Hhum)]; [done|].
  apply list_elem_of_singleton in Hr as ->.
  vm_compute in Hhum. by apply list_elem_of_singleton in Hhum.
Qed.

(** C6 (amended). An iteration of the device loop either persists nothing
    (the table was empty) or persists one non-empty table whose column set
    is [ts], the exported telemetry keys of the device, and every key bound
    in at least one record of the table.  An exported key without any
    sample in the range is still a column. *)
Theorem C6_columns_of_persisted_table fuel lib tb args st device st' :
  process_device fuel lib tb args st device = Ok st' ->
  st_files st' = st_files st
  \/ exists (name : string) (df : DataFrame),
       st_files st' = st_files st ++ [(name, TableFile (output_format args) df)]
       /\ rows df ≠ []
       /\ forall c : string,
            c ∈ columns df
            <-> c = "ts"%string
                \/ c ∈ select_keys (keys args) (get_timeseries_keys tb device)
                \/ exists r, r ∈ rows df /\ c ∈ dict_keys r.
Proof.
  intros (T0 & T1 & df & _ & _ & Hdf & [[_ ->]|(Hlen & df' & Hsort & _ & ->)])
    %process_device_Ok; [by left|].
  right. eexists _, df'. split; [done|].
  apply sort_values_spec in Hsort as (Hcols & Hperm & _).
  split.
  { intros Hnil. apply Hlen. unfold len.
    by rewrite <- Hperm, Hnil. }
  intros c. rewrite Hcols.
  apply device_table_Ok in Hdf.
  assert (rows df = mjoin (dict_values <$>
            (fetch_records lib tb device
               (select_keys (keys args) (get_timeseries_keys tb device))
               <$> batches batch_window T0 T1))) as Hrows
    by (rewrite Hdf; apply accumulate_rows).
  rewrite Hdf at 1. rewrite accumulate_columns. cbn [new_frame columns].
  rewrite elem_of_cons, <- Hrows. setoid_rewrite Hperm. tauto.
Qed.

Lemma C6_witness :
  exists (name : string) (df : DataFrame),
    st_files (saved_state demo_lib demo_tb demo_args empty_state "dev1" jan1 jan2
                (mkDataFrame ["ts"; "temp"; "hum"]%string
                   [[("ts"%string, PInt 1672531200000); ("temp"%string, PInt 5)]]))
    = [(name, TableFile Csv df)]
    /\ ("hum"%string ∈ columns df
        <-> "hum"%string = "ts"%string
            \/ "hum"%string ∈ ["temp"; "hum"]%string
            \/ exists r, r ∈ rows df /\ "hum"%string ∈ dict_keys r).
Proof.
  destruct (C6_columns_of_persisted_table 1 demo_lib demo_tb demo_args
              empty_state "dev1" _ ltac:(vm_compute; reflexivity))
    as [Hnone|(name & df & Hfiles & _ & Hcols)].
  - vm_compute in Hnone. discriminate Hnone.
  - exists name, df. split; [exact Hfiles|]. apply Hcols.
Defined.

(** C8. When the table of a device is empty after all batches, the
    iteration for that device ends normally: it writes no file and adds the
    warning [No telemetry data for device ...] to the log; the device loop
    over this device alone ends in that state, and when further devices
    follow, the loop goes on to process the next of them from that state,
    then the remaining ones. *)
Theorem C8_empty_table_is_skipped fuel lib tb args st device T0 T1 table :
  fromisoformat lib (start_time args) = Some T0 ->
  fromisoformat lib (end_time args) = Some T1 ->
  device_table fuel lib tb device
    (select_keys (keys args) (get_timeseries_keys tb device)) T0 T1
  = Ok table ->
  len table = 0%nat ->
  exists st' : RunState,
    process_device fuel lib tb args st device = Ok st'
    /\ st_files st' = st_files st
    /\ st_log st'
       = st_log st ++ [(WARNING, "No telemetry data for device " +:+ device)]
    /\ st_all_meta st' = st_all_meta st
    /\ for_devices fuel lib tb args [device] st = Ok st'
    /\ forall (next : string) (rest : list string),
         for_devices fuel lib tb args (device :: next :: rest) st
         = (st'' ← process_device fuel lib tb args st' next;
            for_devices fuel lib tb args rest st'').
Proof.
  intros H0 H1 Htable Hlen. exists (skipped_state tb args st device T0 T1).
  assert (process_device fuel lib tb args st device
          = Ok (skipped_state tb args st device T0 T1)) as Hp.
  { rewrite (process_device_eq _ _ _ _ _ _ _ _ _ H0 H1 Htable).
    by rewrite decide_True. }
  split; [done|]. do 3 (split; [done|]).
  split; cbn [for_devices]; by rewrite Hp.
Qed.

(** A run over [dev2], which has no samples, and then [dev1]: the first is
    skipped with its warning and the second is exported. *)
Lemma C8_witness :
  exists st' st'' : RunState,
    process_device 1 demo_lib demo_tb demo_args empty_state "dev2" = Ok st'
    /\ st_files st' = []
    /\ st_log st' = [(WARNING, "No telemetry data for device dev2"%string)]
    /\ process_device 1 demo_lib demo_tb demo_args st' "dev1" = Ok st''
    /\ for_devices 1 demo_lib demo_tb demo_args ["dev2"; "dev1"]%string
         empty_state = Ok st''
    /\ (table_files st'').*1 = ["2023-01-01_2023-01-02_dev1.csv"%string].
Proof.
  destruct (C8_empty_table_is_skipped 1 demo_lib demo_tb demo_args empty_state
              "dev2" jan1 jan2 (new_frame ["ts"; "temp"; "hum"]%string)
              eq_refl eq_refl ltac:(vm_compute; reflexivity) eq_refl)
    as (st' & Hp & Hfiles & Hlog & _ & _ & Hnext).
  specialize (Hnext "dev1"%string []).
  vm_compute in Hp. injection Hp as <-.
  eexists _, _. split; [vm_compute; reflexivity|].
  split; [exact Hfiles|]. split; [exact Hlog|].
  split; [vm_compute; reflexivity|].
  split; [|vm_compute; reflexivity].
  rewrite Hnext. vm_compute. reflexivity.
Defined.
(** ** The run-wide metadata list *)

Lemma written_metadata_snoc files name metas fs log am m s e :
  files = fs ++ [(name, MetadataFile metas)] ->
  written_metadata (mkRunState files log am m s e) = Some metas.
Proof.
  intros ->. unfold written_metadata. cbn [st_files].
  rewrite omap_app. cbn. by rewrite last_snoc.
Qed.

(** C2 (what the code does). [all_meta.append(meta)] stands after the
    device loop, not inside it.  A run over no device ends with a
    [NameError] before any metadata file is written; every run that
    completes has appended exactly one entry, that of the device processed
    last, and this one-entry list is what the metadata file holds, however
    many devices were processed. *)
Theorem C2_metadata_appended_once fuel lib tb args :
  (find_entity_data_by_query tb (device_query (device_profile args)) = [] ->
   main fuel lib tb args = Raise (NameError "meta"))
  /\ forall st : RunState,
       main fuel lib tb args = Ok st ->
       exists m : DeviceMeta,
         st_all_meta st = [m]
         /\ written_metadata st = Some [m]
         /\ last (find_entity_data_by_query tb (device_query (device_profile args)))
            = Some (device_id m).
Proof.
  unfold main. split.
  - intros ->. reflexivity.
  - intros st.
    destruct (for_devices _ _ _ _ _ _) as [st1| |] eqn:Hloop; [|done..].
    apply for_devices_meta in Hloop as [Hall Hlast]. cbn [st_all_meta] in Hall.
    cbn. unfold save_metadata.
    destruct (last (find_entity_data_by_query tb _)) as [device|] eqn:Hdev.
    + destruct Hlast as (m & Hm & Hid). rewrite Hm. cbn.
      destruct (st_dt_start st1); [|done]. cbn.
      destruct (st_dt_end st1); [|done]. cbn.
      intros [= <-]. exists m. rewrite Hall. cbn.
      split; [done|]. split; [|congruence].
      by eapply written_metadata_snoc.
    + subst st1. done.
Qed.

Lemma C2_witness :
  find_entity_data_by_query demo_tb (device_query (device_profile demo_args))
  = ["dev1"; "dev2"]%string
  /\ exists (st : RunState) (m : DeviceMeta),
       main 1 demo_lib demo_tb demo_args = Ok st
       /\ written_metadata st = Some [m]
       /\ device_id m = "dev2"%string.
Proof.
  split; [reflexivity|].
  destruct (main 1 demo_lib demo_tb demo_args) as [st| |] eqn:Hrun;
    [|vm_compute in Hrun; discriminate Hrun..].
  destruct (proj2 (C2_metadata_appended_once 1 demo_lib demo_tb demo_args) st Hrun)
    as (m & _ & Hfile & Hlast).
  exists st, m. split; [reflexivity|]. split; [exact Hfile|].
  change (Some "dev2"%string = Some (device_id m)) in Hlast.
  by injection Hlast.
Defined.

(** ** The key filter *)

(** C10. The exported key list is a subsequence of the device's key list
    (same order, nothing added), so it is duplicate-free whenever the
    device's list is; with a filter it holds exactly the device's keys that
    the filter names; it depends on which keys the filter names and not on
    their order or repetition in the filter; and it is the list recorded as
    [exported_keys] in the device's metadata, next to the full list. *)
Theorem C10_exported_keys (keys_arg : option string) (all_keys : list string) :
  select_keys keys_arg all_keys `sublist_of` all_keys
  /\ (forall k, k ∈ select_keys keys_arg all_keys -> k ∈ all_keys)
  /\ (NoDup all_keys -> NoDup (select_keys keys_arg all_keys))
  /\ (forall ks, keys_arg = Some ks -> ks ≠ ""%string ->
        forall k, k ∈ select_keys keys_arg all_keys
                  <-> k ∈ all_keys /\ k ∈ split ","%char ks)
  /\ (forall ks ks', keys_arg = Some ks -> ks ≠ ""%string -> ks' ≠ ""%string ->
        (forall k, k ∈ split ","%char ks <-> k ∈ split ","%char ks') ->
        select_keys (Some ks') all_keys = select_keys keys_arg all_keys)
  /\ (forall fuel lib tb args st device st',
        keys args = keys_arg -> get_timeseries_keys tb device = all_keys ->
        process_device fuel lib tb args st device = Ok st' ->
        exists m, st_meta st' = Some m
                  /\ device_id m = device
                  /\ tm_keys (telemetry m) = all_keys
                  /\ tm_exported_keys (telemetry m)
                     = select_keys keys_arg all_keys).
Proof.
  assert (select_keys keys_arg all_keys `sublist_of` all_keys) as Hsub.
  { unfold select_keys. destruct keys_arg as [ks|]; [|done].
    case_decide; [done|]. apply sublist_filter. }
  split; [done|].
  split; [intros k Hk; by eapply elem_of_sublist|].
  split; [intros Hnd; by eapply sublist_NoDup|].
  split.
  { intros ks -> Hks k. unfold select_keys. rewrite decide_False by done.
    rewrite list_elem_of_filter. tauto. }
  split.
  { intros ks ks' -> Hks Hks' Hsame. unfold select_keys.
    rewrite !decide_False by done. apply list_filter_iff. intros k. by symmetry. }
  intros fuel lib tb args st device st' <- <- Hp.
  apply process_device_Ok in Hp
    as (T0 & T1 & df & _ & _ & _ & [[_ ->]|(_ & df' & _ & _ & ->)]);
    by eexists.
Qed.

Lemma C10_witness :
  select_keys (Some "hum,temp,hum"%string) ["temp"; "co2"; "hum"]%string
  = ["temp"; "hum"]%string
  /\ NoDup (select_keys (Some "hum,temp,hum"%string) ["temp"; "co2"; "hum"]%string)
  /\ select_keys (Some "temp,hum"%string) ["temp"; "co2"; "hum"]%string
     = select_keys (Some "hum,temp,hum"%string) ["temp"; "co2"; "hum"]%string.
Proof.
  destruct (C10_exported_keys (Some "hum,temp,hum"%string)
              ["temp"; "co2"; "hum"]%string)
    as (_ & _ & Hnd & _ & Hsame & _).
  split; [reflexivity|]. split; [apply Hnd; by_compute|].
  apply (Hsame "hum,temp,hum"%string); [done..|].
  intros k.
  change (split ","%char "hum,temp,hum") with ["hum"; "temp"; "hum"]%string.
  change (split ","%char "temp,hum") with ["temp"; "hum"]%string.
  rewrite !elem_of_cons, !elem_of_nil. tauto.
Defined.

(** ** The single-entity lookup *)

(** The claim of C9 as written fails: with exactly one matching device
    whose latest values do not hold the requested attribute, the subscript
    of the second [logger.debug] call raises a [KeyError]; nothing is
    returned. *)
Lemma C9_counterexample :
  ~ (forall (client : Client)
       (match_attribute_key match_attribute_value get_attribute_key : string),
       length (client (build_query match_attribute_key match_attribute_value
                         get_attribute_key)) = 1%nat ->
       exists value : string,
         get_attribute client match_attribute_key match_attribute_value
           get_attribute_key = Ok value).
Proof.
  intros H.
  destruct (H one_device "serialNumber" "SN-1" "firmware")%string
    as [value Hvalue]; [reflexivity|].
  vm_compute in Hvalue. discriminate Hvalue.
Qed.

(** C9, amended.  [get_attribute] raises a [ValueError] exactly when the
    entity query returns a number of devices other than one (the message
    names the number found).  When it returns exactly one device, the result
    is the value of the requested attribute among that device's latest
    values if they hold it; if the device has no latest values of type
    [ATTRIBUTE], or these do not hold the requested attribute, a [KeyError]
    is raised. *)
Theorem C9_get_attribute (client : Client)
    (match_attribute_key match_attribute_value get_attribute_key : string) :
  let data := client (build_query match_attribute_key match_attribute_value
                        get_attribute_key) in
  let outcome := get_attribute client match_attribute_key match_attribute_value
                   get_attribute_key in
  ((exists msg, outcome = Raise (ValueError msg)) <-> length data ≠ 1%nat)
  /\ (length data ≠ 1%nat ->
      outcome = Raise (ValueError
                         (mismatch_message match_attribute_key
                            match_attribute_value (length data))))
  /\ (forall d attrs tv,
        data = [d] ->
        dict_get "ATTRIBUTE"%string (latest d) = Some attrs ->
        dict_get get_attribute_key attrs = Some tv ->
        outcome = Ok (tv_value tv))
  /\ (forall d,
        data = [d] ->
        dict_get "ATTRIBUTE"%string (latest d) = None ->
        outcome = Raise (KeyError "ATTRIBUTE"))
  /\ (forall d attrs,
        data = [d] ->
        dict_get "ATTRIBUTE"%string (latest d) = Some attrs ->
        dict_get get_attribute_key attrs = None ->
        outcome = Raise (KeyError get_attribute_key)).
Proof.
  cbn zeta. unfold get_attribute.
  set (data := client _).
  split; [|split; [|split; [|split]]].
  - case_decide as Hlen.
    + split; [done|]. intros _. by eexists.
    + split; [|done]. intros [msg Hmsg]. exfalso.
      destruct data as [|d [|]]; try (cbn in Hlen; lia). cbn in Hmsg.
      destruct (dict_get "ATTRIBUTE"%string (latest d)) as [attrs|]; [|done].
      cbn in Hmsg. by destruct (dict_get get_attribute_key attrs).
  - intros Hlen. by rewrite decide_True.
  - intros d attrs tv -> Hattrs Htv. cbn. by rewrite Hattrs; cbn; rewrite Htv.
  - intros d -> Hattrs. cbn. by rewrite Hattrs.
  - intros d attrs -> Hattrs Htv. cbn. by rewrite Hattrs; cbn; rewrite Htv.
Qed.

Lemma C9_witness :
  get_attribute one_device "serialNumber" "SN-1" "model" = Ok "T1000"%string
  /\ get_attribute no_device "serialNumber" "SN-1" "model"
     = Raise (ValueError
                "Expected exactly one device with serialNumber SN-1, found 0").
Proof.
  split.
  - apply (proj1 (proj2 (proj2
             (C9_get_attribute one_device "serialNumber" "SN-1" "model")))
             (mkEntityData "dev1"
                [("ATTRIBUTE"%string,
                  [("serialNumber"%string, mkTsValue 1 "SN-1");
                   ("model"%string, mkTsValue 2 "T1000")])])
             [("serialNumber"%string, mkTsValue 1 "SN-1");
              ("model"%string, mkTsValue 2 "T1000")]
             (mkTsValue 2 "T1000")); reflexivity.
  - apply (proj1 (proj2 (C9_get_attribute no_device "serialNumber" "SN-1" "model"))).
    cbn. lia.
Defined.

(** ** The end-to-end examples of the planner *)

(** One day at the 24-hour window is one batch spanning the range; two days
    are two batches of 24 hours each, the second ending at the end of the
    range. *)
Example planner_one_day :
  plan 1 batch_window jan1 jan2 = Ok [mkBatch jan1 jan2].
Proof. by vm_compute. Qed.

Example planner_two_days :
  plan 2 batch_window jan1 jan3 = Ok [mkBatch jan1 jan2; mkBatch jan2 jan3]
  /\ b_duration (mkBatch jan1 jan2) = batch_window
  /\ b_duration (mkBatch jan2 jan3) = batch_window.
Proof. by vm_compute. Qed.

(** ** Further properties of the Sample Merger *)

Section MergerMore.

Implicit Types (records : Records) (samples : list Sample) (res : Response).

Lemma add_sample_keys_elem key records s t :
  t ∈ dict_keys (add_sample key records s)
  <-> t ∈ dict_keys records \/ t = s_ts s.
Proof.
  rewrite add_sample_keys. case_decide as Hin.
  - split; [by left|]. by intros [?| ->].
  - rewrite elem_of_app, list_elem_of_singleton. done.
Qed.

Lemma add_samples_keys_elem key samples records t :
  t ∈ dict_keys (add_samples key records samples)
  <-> t ∈ dict_keys records \/ t ∈ s_ts <$> samples.
Proof.
  revert records. induction samples as [|s samples IH]; intros records.
  - cbn. rewrite elem_of_nil. tauto.
  - rewrite add_samples_cons, IH, add_sample_keys_elem, fmap_cons, elem_of_cons.
    tauto.
Qed.

Lemma merge_from_keys_elem res records t :
  t ∈ dict_keys (merge_from res records)
  <-> t ∈ dict_keys records \/ t ∈ all_timestamps res.
Proof.
  revert records. unfold all_timestamps.
  induction res as [|[key samples] res IH]; intros records.
  - cbn. rewrite elem_of_nil. tauto.
  - rewrite merge_from_cons, IH, add_samples_keys_elem, fmap_cons, join_cons,
      elem_of_app. cbn [snd]. tauto.
Qed.

(** Cells of keys other than the one being merged, and other than [ts], are
    left exactly as they were. *)
Lemma add_sample_cell_untouched key records s t k :
  k ≠ key -> k ≠ "ts"%string ->
  row_cell (add_sample key records s) t k = row_cell records t k.
Proof.
  unfold row_cell. intros Hne Hts. rewrite add_sample_get.
  case_decide; [|done]. cbn. rewrite dict_get_set_ne by done.
  destruct (dict_get t records); cbn; [done|]. by rewrite decide_False.
Qed.

Lemma add_samples_cell_untouched key samples records t k :
  k ≠ key -> k ≠ "ts"%string ->
  row_cell (add_samples key records samples) t k = row_cell records t k.
Proof.
  intros Hne Hts. revert records.
  induction samples as [|s samples IH]; intros records; [done|].
  by rewrite add_samples_cons, IH, add_sample_cell_untouched.
Qed.

Lemma merge_from_cell_untouched res records t k :
  k ∉ dict_keys res -> k ≠ "ts"%string ->
  row_cell (merge_from res records) t k = row_cell records t k.
Proof.
  intros Hnin Hts. revert records. unfold dict_keys in Hnin.
  induction res as [|[key samples] res IH]; intros records; [done|].
  cbn in Hnin. apply not_elem_of_cons in Hnin as [Hne Hnin].
  by rewrite merge_from_cons, IH, add_samples_cell_untouched.
Qed.

Lemma merge_from_cell_exact res records key samples t :
  NoDup (dict_keys res) -> (key, samples) ∈ res -> key ≠ "ts"%string ->
  row_cell (merge_from res records) t key
  = match last_at t samples with
    | Some v => Some v
    | None => row_cell records t key
    end.
Proof.
  intros Hnd Hin Hts. revert records Hnd Hin. unfold dict_keys.
  induction res as [|[key' samples'] res IH]; intros records Hnd Hin.
  - by apply elem_of_nil in Hin.
  - cbn in Hnd. apply NoDup_cons in Hnd as [Hnin Hnd].
    rewrite merge_from_cons.
    apply elem_of_cons in Hin as [Heq|Hin].
    + inversion Heq; subst key' samples'.
      rewrite merge_from_cell_untouched by done.
      apply add_samples_cell_same.
    + rewrite IH by done.
      rewrite add_samples_cell_untouched; [done| |done].
      intros ->. apply Hnin, list_elem_of_fmap. by exists (key', samples).
Qed.

(** The keys of a merged record: [ts] and keys of the response. *)
Lemma merge_row_keys res t row k :
  (t, row) ∈ merge res -> k ∈ dict_keys row ->
  k = "ts"%string \/ k ∈ dict_keys res.
Proof.
  intros Hin Hk.
  destruct (decide (k = "ts"%string)) as [|Hts]; [by left|].
  destruct (decide (k ∈ dict_keys res)) as [|Hnin]; [by right|].
  exfalso.
  pose proof (merge_from_cell_untouched res [] t k Hnin Hts) as Hc.
  unfold row_cell in Hc. fold (merge res) in Hc.
  rewrite (dict_get_elem_of _ _ _ (merge_NoDup res) Hin) in Hc. cbn in Hc.
  by apply dict_get_None in Hc.
Qed.

End MergerMore.

(** X1. The merged mapping has exactly one record per distinct timestamp
    of the response: its timestamps are pairwise distinct, they are exactly
    the timestamps that some sample of some key carries, and their number is
    the number of distinct sample timestamps.  Keys with an empty sample list
    contribute nothing. *)
Theorem merge_one_record_per_timestamp (res : Response) :
  NoDup (dict_keys (merge res))
  /\ (forall t, t ∈ dict_keys (merge res) <-> t ∈ all_timestamps res)
  /\ length (merge res) = length (remove_dups (all_timestamps res)).
Proof.
  assert (forall t, t ∈ dict_keys (merge res) <-> t ∈ all_timestamps res) as Hel.
  { intros t. unfold merge. rewrite merge_from_keys_elem. cbn.
    rewrite elem_of_nil. tauto. }
  split; [apply merge_NoDup|]. split; [done|].
  rewrite <- (length_fmap fst (merge res)).
  apply Permutation_length, NoDup_Permutation.
  - apply merge_NoDup.
  - apply NoDup_remove_dups.
  - intros t. rewrite elem_of_remove_dups. apply Hel.
Qed.

(** X2. For a response with pairwise distinct keys and a key other than
    [ts]: the record of a timestamp holds under that key the value of the
    key's last sample at that timestamp, and no cell at all when the key has
    no sample there; and no record holds a cell (other than [ts]) for a key
    the response does not list. *)
Theorem merge_cells_exact (res : Response) :
  NoDup (dict_keys res) ->
  (forall key samples t,
     (key, samples) ∈ res -> key ≠ "ts"%string ->
     row_cell (merge res) t key = last_at t samples)
  /\ (forall k t, k ∉ dict_keys res -> k ≠ "ts"%string ->
        row_cell (merge res) t k = None).
Proof.
  intros Hnd. split.
  - intros key samples t Hin Hts. unfold merge.
    rewrite (merge_from_cell_exact res [] key samples t Hnd Hin Hts).
    by destruct (last_at t samples).
  - intros k t Hnin Hts. unfold merge.
    by rewrite merge_from_cell_untouched.
Qed.

Lemma merge_cells_exact_witness :
  row_cell (merge [("temp"%string, [mkSample 100 (PInt 5); mkSample 100 (PInt 7)]);
                   ("hum"%string, [mkSample 200 (PInt 61)])]) 100 "temp"
  = Some (PInt 7)
  /\ row_cell (merge [("temp"%string, [mkSample 100 (PInt 5); mkSample 100 (PInt 7)]);
                      ("hum"%string, [mkSample 200 (PInt 61)])]) 200 "temp"
     = None.
Proof.
  destruct (merge_cells_exact
              [("temp"%string, [mkSample 100 (PInt 5); mkSample 100 (PInt 7)]);
               ("hum"%string, [mkSample 200 (PInt 61)])] ltac:(by_compute))
    as [Hcell _].
  split.
  - rewrite (Hcell "temp"%string [mkSample 100 (PInt 5); mkSample 100 (PInt 7)]);
      [reflexivity| |done]. apply elem_of_cons. by left.
  - rewrite (Hcell "temp"%string [mkSample 100 (PInt 5); mkSample 100 (PInt 7)]);
      [reflexivity| |done]. apply elem_of_cons. by left.
Defined.

(** X3. When no telemetry key of the response is named [ts], every merged
    record holds its own timestamp in its [ts] cell, and its keys are [ts]
    and keys of the response only. *)
Theorem merge_records_well_formed (res : Response) :
  "ts"%string ∉ dict_keys res ->
  forall t row, (t, row) ∈ merge res ->
    dict_get "ts"%string row = Some (PInt t)
    /\ forall k, k ∈ dict_keys row -> k = "ts"%string \/ k ∈ dict_keys res.
Proof.
  intros Hts t row Hin. split.
  - assert (stamped (merge res)) as Hinv
      by (apply merge_from_stamped; [done|by intros ? ?]).
    apply Hinv. by apply dict_get_elem_of; [apply merge_NoDup|].
  - intros k. by apply merge_row_keys with t.
Qed.

Lemma merge_records_well_formed_witness :
  dict_get "ts"%string [("ts"%string, PInt 200); ("hum"%string, PInt 61)]
  = Some (PInt 200).
Proof.
  apply (merge_records_well_formed
           [("temp"%string, [mkSample 100 (PInt 5)]);
            ("hum"%string, [mkSample 100 (PInt 60); mkSample 200 (PInt 61)])]
           ltac:(by_compute) 200).
  vm_compute. apply elem_of_cons. right. apply elem_of_cons. by left.
Defined.

(** ** Further properties of the exporter *)

Section ExporterMore.

Lemma index_union_absorb (l k : list string) :
  (forall x, x ∈ k -> x ∈ l) -> index_union l k = l.
Proof.
  intros Hsub. unfold index_union.
  rewrite (elem_of_nil_inv (list_difference k l)); [by rewrite app_nil_r|].
  intros x [Hk Hl]%list_elem_of_difference. by apply Hl, Hsub.
Qed.

Lemma append_records_columns_absorb (df : DataFrame) (records : Records) :
  (forall row k, row ∈ dict_values records -> k ∈ dict_keys row ->
     k ∈ columns df) ->
  columns (append_records df records) = columns df.
Proof.
  intros Hsub. unfold append_records. case_decide; [|done].
  cbn [concat columns]. apply index_union_absorb.
  intros c (row & Hrow & Hc)%from_records_columns. by eapply Hsub.
Qed.

Lemma accumulate_columns_absorb (df : DataFrame) (batch_records : list Records) :
  (forall records row k, records ∈ batch_records ->
     row ∈ dict_values records -> k ∈ dict_keys row -> k ∈ columns df) ->
  columns (accumulate df batch_records) = columns df.
Proof.
  revert df. unfold accumulate.
  induction batch_records as [|records bs IH]; intros df Hsub; [done|].
  cbn [fold_left].
  assert (columns (append_records df records) = columns df) as Heq.
  { apply append_records_columns_absorb. intros row k. apply Hsub.
    apply elem_of_cons. by left. }
  rewrite IH; [done|]. intros records' row k Hin. rewrite Heq.
  apply Hsub. apply elem_of_cons. by right.
Qed.

Variables (lib : Library) (tb : RestClient) (args : Args).

Lemma device_table_rows fuel device T0 T1 df :
  device_table fuel lib tb device
    (select_keys (keys args) (get_timeseries_keys tb device)) T0 T1 = Ok df ->
  rows df = device_rows lib tb args device T0 T1.
Proof. intros ->%device_table_Ok. apply accumulate_rows. Qed.

(** The table an iteration sorts is the table of the fetched mappings:
    the sorted table of the device is [sorted_table] of its columns and
    mappings. *)
Lemma device_table_sorted_table fuel device T0 T1 df :
  device_table fuel lib tb device
    (select_keys (keys args) (get_timeseries_keys tb device)) T0 T1 = Ok df ->
  sort_values "ts" df
  = sorted_table
      ("ts"%string :: select_keys (keys args) (get_timeseries_keys tb device))
      (device_records lib tb args device T0 T1).
Proof.
  intros Hdf%device_table_steps. unfold sorted_table, device_records.
  by rewrite Hdf.
Qed.


(** The device loop writes a table for every device with records and logs
    one line per device, in device order. *)
Lemma for_devices_files_log fuel T0 T1 device_ids st st' :
  fromisoformat lib (start_time args) = Some T0 ->
  fromisoformat lib (end_time args) = Some T1 ->
  for_devices fuel lib tb args device_ids st = Ok st' ->
  (st_files st').*1
  = (st_files st).*1
    ++ (output_file_name lib args T0 T1
          <$> filter (fun d => device_rows lib tb args d T0 T1 ≠ []) device_ids)
  /\ st_log st' = st_log st ++ (device_log_line lib tb args T0 T1 <$> device_ids)
  /\ (device_ids ≠ [] ->
      st_dt_start st' = Some T0 /\ st_dt_end st' = Some T1).
Proof.
  intros H0 H1. revert st.
  induction device_ids as [|device rest IH]; intros st; cbn [for_devices].
  - intros [= <-]. cbn. by rewrite !app_nil_r.
  - destruct (process_device fuel lib tb args st device) as [st1| |] eqn:Hp;
      [|done..].
    intros Hrest. cbn [mbind result_bind bind] in Hrest.
    destruct (IH _ Hrest) as (Hfiles & Hlog & Hdt).
    apply process_device_Ok in Hp
      as (T0' & T1' & df & H0' & H1' & Hdf & Hcase).
    rewrite H0 in H0'. rewrite H1 in H1'.
    injection H0' as <-. injection H1' as <-.
    apply device_table_rows in Hdf.
    assert (st_dt_start st1 = Some T0 /\ st_dt_end st1 = Some T1) as Hdt1
      by (destruct Hcase as [[_ ->]|(_ & df' & _ & _ & ->)]; done).
    assert (st_dt_start st' = Some T0 /\ st_dt_end st' = Some T1) as Hdt'.
    { destruct rest as [|d rest']; [|by apply Hdt].
      cbn in Hrest. by injection Hrest as <-. }
    rewrite Hfiles, Hlog, (fmap_cons (device_log_line lib tb args T0 T1)).
    unfold device_log_line at 2.
    destruct Hcase as [[Hlen ->]|(Hlen & df' & Hsort & _ & ->)].
    + apply length_zero_iff_nil in Hlen. rewrite Hdf in Hlen.
      rewrite filter_cons_False by (by intros ?).
      rewrite decide_True by done. cbn [st_files st_log skipped_state].
      split; [done|]. split; [by rewrite <- app_assoc|done].
    + assert (device_rows lib tb args device T0 T1 ≠ []) as Hne.
      { rewrite <- Hdf. intros Hnil. apply Hlen. unfold len. by rewrite Hnil. }
      rewrite filter_cons_True by done.
      rewrite decide_False by done. cbn [st_files st_log saved_state].
      rewrite (fmap_app fst), fmap_cons, <- !app_assoc.
      split; [done|]. split; [done|done].
Qed.

End ExporterMore.

(** X4. When the server answers with requested keys only, the table written
    for a device has exactly the columns [ts] followed by the exported keys,
    in the order the device reports them. *)
Theorem table_header_is_ts_then_exported_keys fuel lib tb args st device st' :
  (forall ts te,
     dict_keys (get_timeseries tb device
                  (join "," (select_keys (keys args)
                               (get_timeseries_keys tb device)))
                  ts te points_limit)
     ⊆ select_keys (keys args) (get_timeseries_keys tb device)) ->
  process_device fuel lib tb args st device = Ok st' ->
  st_files st' = st_files st
  \/ exists (name : string) (df : DataFrame),
       st_files st' = st_files st ++ [(name, TableFile (output_format args) df)]
       /\ columns df
          = "ts"%string :: select_keys (keys args) (get_timeseries_keys tb device).
Proof.
  intros Hkeys (T0 & T1 & df & _ & _ & Hdf & [[_ ->]|(_ & df' & Hsort & _ & ->)])
    %process_device_Ok; [by left|].
  right. eexists _, df'. split; [done|].
  apply sort_values_spec in Hsort as (-> & _).
  apply device_table_Ok in Hdf as ->.
  rewrite accumulate_columns_absorb; [done|].
  intros records row k (w & -> & _)%list_elem_of_fmap Hrow Hk.
  cbn [new_frame columns]. apply elem_of_cons.
  unfold dict_values in Hrow.
  apply list_elem_of_fmap in Hrow as ([t row'] & -> & Hin).
  destruct (merge_row_keys _ _ _ _ Hin Hk) as [|Hres]; [by left|].
  right. by eapply Hkeys.
Qed.

Lemma table_header_witness :
  exists (name : string) (df : DataFrame),
    st_files (saved_state demo_lib demo_tb demo_args empty_state "dev1" jan1 jan2
                (mkDataFrame ["ts"; "temp"; "hum"]%string
                   [[("ts"%string, PInt 1672531200000); ("temp"%string, PInt 5)]]))
    = [(name, TableFile Csv df)]
    /\ columns df = ["ts"; "temp"; "hum"]%string.
Proof.
  destruct (table_header_is_ts_then_exported_keys 1 demo_lib demo_tb demo_args
              empty_state "dev1" _
              ltac:(intros ts te;
                    change (["temp"%string] ⊆ ["temp"; "hum"]%string);
                    intros k ->%list_elem_of_singleton;
                    apply elem_of_cons; by left)
              ltac:(vm_compute; reflexivity))
    as [Hnone|(name & df & Hfiles & Hcols)].
  - vm_compute in Hnone. discriminate Hnone.
  - by exists name, df.
Defined.



(** X6. A run that completes has written, in this order, one table file for
    every device with records (none for a device without) and then the
    metadata file; its log has the three opening lines, one line per device
    in device order (a warning for a device without records, the saved-file
    line otherwise) and the closing metadata line. *)
Theorem run_files_and_log fuel lib tb args st :
  main fuel lib tb args = Ok st ->
  exists T0 T1 : datetime,
    fromisoformat lib (start_time args) = Some T0
    /\ fromisoformat lib (end_time args) = Some T1
    /\ (st_files st).*1
       = (output_file_name lib args T0 T1
            <$> filter (fun d => device_rows lib tb args d T0 T1 ≠ [])
                  (find_entity_data_by_query tb (device_query (device_profile args))))
         ++ [meta_file_name lib T0 T1]
    /\ st_log st
       = [(INFO, "Connecting to ThingsBoard " +:+ host args);
          (INFO, "Get devices of profile " +:+ device_profile args +:+ "...");
          (INFO, "Found "
                 +:+ str_of_nat
                       (length (find_entity_data_by_query tb
                                  (device_query (device_profile args))))
                 +:+ " devices of profile " +:+ device_profile args)]
         ++ (device_log_line lib tb args T0 T1
               <$> find_entity_data_by_query tb (device_query (device_profile args)))
         ++ [(INFO, "Saved metadata to " +:+ meta_file_name lib T0 T1)].
Proof.
  unfold main.
  set (ids := find_entity_data_by_query tb (device_query (device_profile args))).
  destruct (for_devices _ _ _ _ ids _) as [st1| |] eqn:Hloop; [|done..].
  cbn. intros Hsave.
  destruct ids as [|device rest] eqn:Hids.
  { cbn in Hloop. injection Hloop as <-. done. }
  assert (exists T0 T1, fromisoformat lib (start_time args) = Some T0
                        /\ fromisoformat lib (end_time args) = Some T1)
    as (T0 & T1 & H0 & H1).
  { cbn [for_devices] in Hloop.
    destruct (process_device _ _ _ _ _ device) as [st2| |] eqn:Hp; [|done..].
    apply process_device_Ok in Hp as (T0 & T1 & _ & H0 & H1 & _). eauto. }
  exists T0, T1. do 2 (split; [done|]).
  destruct (for_devices_files_log lib tb args fuel T0 T1 _ _ _ H0 H1 Hloop)
    as (Hfiles & Hlog & Hdt).
  destruct (Hdt ltac:(done)) as [Hs He].
  unfold save_metadata in Hsave. rewrite Hs, He in Hsave.
  destruct (st_meta st1); [|done]. cbn in Hsave. injection Hsave as <-.
  cbn [st_files st_log]. rewrite fmap_app, Hfiles, Hlog. cbn [st_files st_log].
  split; [done|]. by rewrite <- app_assoc.
Qed.

Lemma run_files_and_log_witness :
  exists st : RunState,
    main 1 demo_lib demo_tb demo_args = Ok st
    /\ (st_files st).*1
       = ["2023-01-01_2023-01-02_dev1.csv";
          "2023-01-01_2023-01-02_metadata.json"]%string.
Proof.
  destruct (main 1 demo_lib demo_tb demo_args) as [st| |] eqn:Hrun;
    [|vm_compute in Hrun; discriminate Hrun..].
  destruct (run_files_and_log 1 demo_lib demo_tb demo_args st Hrun)
    as (T0 & T1 & H0 & H1 & Hfiles & _).
  exists st. split; [reflexivity|].
  vm_compute in H0, H1. injection H0 as <-. injection H1 as <-.
  rewrite Hfiles. vm_compute. reflexivity.
Defined.

(** ** Joining and splitting key lists *)

Section SplitJoin.

Variable sep : ascii.

Lemma split_nonempty s : split sep s ≠ [].
Proof.
  destruct s as [|c s]; cbn [split]; [done|].
  case_decide; [done|]. by destruct (split sep s).
Qed.

Lemma join_cons2 (sp x y : string) (l : list string) :
  join sp (x :: y :: l) = x +:+ sp +:+ join sp (y :: l).
Proof. reflexivity. Qed.

Lemma split_no_sep s : sep ∉ list_ascii_of_string s -> split sep s = [s].
Proof.
  induction s as [|c s IH]; cbn [split list_ascii_of_string]; [done|].
  intros [Hne Hnin]%not_elem_of_cons.
  rewrite decide_False by congruence. by rewrite IH.
Qed.

Lemma split_app s rest :
  sep ∉ list_ascii_of_string s ->
  split sep (s +:+ String sep rest) = s :: split sep rest.
Proof.
  induction s as [|c s IH].
  - intros _. change (""%string +:+ String sep rest) with (String sep rest).
    cbn [split]. by rewrite decide_True.
  - intros [Hne Hnin]%not_elem_of_cons.
    change (String c s +:+ String sep rest)
      with (String c (s +:+ String sep rest)).
    cbn [split]. rewrite decide_False by congruence.
    by rewrite IH.
Qed.

Lemma split_parts_no_sep s w : w ∈ split sep s -> sep ∉ list_ascii_of_string w.
Proof.
  revert w. induction s as [|c s IH]; intros w; cbn [split].
  - intros ->%list_elem_of_singleton. apply not_elem_of_nil.
  - case_decide as Hc.
    + intros [->|Hin]%elem_of_cons; [apply not_elem_of_nil|by apply IH].
    + pose proof (split_nonempty s) as Hne.
      destruct (split sep s) as [|w0 ws]; [done|].
      intros [->|Hin]%elem_of_cons.
      * cbn [list_ascii_of_string]. apply not_elem_of_cons. split; [done|].
        apply IH, elem_of_cons. by left.
      * apply IH, elem_of_cons. by right.
Qed.

Lemma join_split s : join (String sep "") (split sep s) = s.
Proof.
  induction s as [|c s IH]; [done|].
  pose proof (split_nonempty s) as Hne.
  cbn [split]. case_decide as Hc.
  - subst c. destruct (split sep s) as [|w ws]; [done|].
    rewrite join_cons2, IH. done.
  - destruct (split sep s) as [|w [|w' ws]]; [done| |].
    + cbn in IH. cbn. by rewrite IH.
    + rewrite join_cons2. rewrite join_cons2 in IH. cbn. by rewrite <- IH.
Qed.

Lemma split_join l :
  l ≠ [] -> Forall (fun s => sep ∉ list_ascii_of_string s) l ->
  split sep (join (String sep "") l) = l.
Proof.
  induction l as [|s l IH]; [done|]. intros _ [Hs Hl]%Forall_cons.
  destruct l as [|s' l].
  - cbn. by apply split_no_sep.
  - rewrite join_cons2.
    change (s +:+ String sep "" +:+ join (String sep "") (s' :: l))
      with (s +:+ String sep (join (String sep "") (s' :: l))).
    rewrite split_app by done. f_equal. by apply IH.
Qed.

End SplitJoin.

(** X8. Splitting and joining on a separator character are inverse to each
    other: joining the parts of any string gives the string back, and
    splitting the join of a non-empty list of strings that are free of the
    separator gives the list back.  No part of a split contains the
    separator. *)
Theorem split_join_round_trip (sep : ascii) :
  (forall s, join (String sep "") (split sep s) = s)
  /\ (forall l, l ≠ [] -> Forall (fun s => sep ∉ list_ascii_of_string s) l ->
        split sep (join (String sep "") l) = l)
  /\ (forall s w, w ∈ split sep s -> sep ∉ list_ascii_of_string w).
Proof.
  split; [apply join_split|]. split; [apply split_join|].
  apply split_parts_no_sep.
Qed.

Lemma split_join_witness :
  split ","%char (join "," ["temp"; "hum"; "co2"]%string)
  = ["temp"; "hum"; "co2"]%string.
Proof.
  apply (proj1 (proj2 (split_join_round_trip ","%char))); [done|].
  repeat constructor; by_compute.
Defined.

(** X9. A key filter written as the comma-join of a non-empty list of
    comma-free names exports exactly the device's keys that the list names,
    in device order, unless the list names the empty string only: that
    filter is the empty argument, and every key of the device is exported.
    Through a filter that is not empty, a device key whose name contains a
    comma is never exported. *)
Theorem key_filter_selects_named_keys (all_keys : list string) :
  (forall ks : list string,
     ks ≠ [] -> Forall (fun s => ","%char ∉ list_ascii_of_string s) ks ->
     select_keys (Some (join "," ks)) all_keys
     = if decide (ks = [""%string]) then all_keys
       else filter (fun k => k ∈ ks) all_keys)
  /\ (forall (filter_arg k : string),
        filter_arg ≠ ""%string -> ","%char ∈ list_ascii_of_string k ->
        k ∉ select_keys (Some filter_arg) all_keys).
Proof.
  split.
  - intros ks Hne Hfree. unfold select_keys.
    pose proof (split_join ","%char ks Hne Hfree) as Hsplit.
    destruct (decide (join "," ks = ""%string)) as [Hjoin|Hjoin].
    + rewrite Hjoin in Hsplit. cbn in Hsplit.
      by rewrite decide_True.
    + rewrite decide_False by (by intros ->). by rewrite Hsplit.
  - intros filter_arg k Hne Hcomma. unfold select_keys.
    rewrite decide_False by done.
    intros [Hin _]%list_elem_of_filter.
    by apply split_parts_no_sep in Hin.
Qed.

Lemma key_filter_witness :
  select_keys (Some (join "," ["hum"; "temp"]%string)) ["temp"; "co2"; "hum"]%string
  = ["temp"; "hum"]%string
  /\ "a,b"%string ∉ select_keys (Some "a,b"%string) ["a,b"; "a"; "b"]%string.
Proof.
  destruct (key_filter_selects_named_keys ["temp"; "co2"; "hum"]%string)
    as [Hsel _].
  destruct (key_filter_selects_named_keys ["a,b"; "a"; "b"]%string)
    as [_ Hcomma].
  split.
  - rewrite Hsel; [reflexivity|done|]. repeat constructor; by_compute.
  - apply Hcomma; [done|by_compute].
Defined.

(** ** The attribute mapping *)

Lemma attributes_from_get (res : list Attribute) (d : list (string * pyval)) k :
  dict_get k (fold_left (fun d a => dict_set (a_key a) (a_value a) d) res d)
  = match last (filter (fun a => a_key a = k) res) with
    | Some a => Some (a_value a)
    | None => dict_get k d
    end.
Proof.
  revert d. induction res as [|a res IH]; intros d; [done|].
  cbn [fold_left]. rewrite IH. destruct (decide (a_key a = k)) as [Hk|Hk].
  - rewrite filter_cons_True by done. rewrite last_cons.
    destruct (last (filter _ res)); [done|]. subst k. apply dict_get_set_eq.
  - rewrite filter_cons_False by done.
    destruct (last (filter _ res)); [done|]. by apply dict_get_set_ne.
Qed.

Lemma attributes_from_NoDup (res : list Attribute) (d : list (string * pyval)) :
  NoDup (dict_keys d) ->
  NoDup (dict_keys (fold_left (fun d a => dict_set (a_key a) (a_value a) d) res d)).
Proof.
  revert d. induction res as [|a res IH]; intros d Hnd; [done|].
  cbn [fold_left]. by apply IH, dict_set_NoDup.
Qed.

(** X10. The attribute mapping of a device binds every key once, to the
    value of the last attribute of the response with that key (an attribute
    returned for several scopes keeps only the value returned last), and
    binds no key the response does not contain. *)
Theorem attributes_last_value_wins (res : list Attribute) :
  NoDup (dict_keys (attributes_of res))
  /\ forall k, dict_get k (attributes_of res)
               = a_value <$> last (filter (fun a => a_key a = k) res).
Proof.
  split.
  - apply attributes_from_NoDup. cbn. apply NoDup_nil_2.
  - intros k. unfold attributes_of. rewrite attributes_from_get.
    by destruct (last _).
Qed.

(** ** Naming the enriched file *)

Section ReplaceFacts.

Lemma prefix_nil (s : string) : String.prefix "" s = true.
Proof. by destruct s. Qed.

Lemma prefix_app_true (o b : string) : String.prefix o (o +:+ b) = true.
Proof.
  induction o as [|c o IH]; [apply prefix_nil|].
  change (String c o +:+ b) with (String c (o +:+ b)).
  cbn [String.prefix]. destruct (ascii_dec c c); [exact IH|done].
Qed.

Lemma prefix_true_app (o s : string) :
  String.prefix o s = true -> exists post, s = o +:+ post.
Proof.
  revert s. induction o as [|c o IH]; intros s.
  - intros _. by exists s.
  - destruct s as [|c' s]; [done|]. cbn [String.prefix].
    destruct (ascii_dec c c') as [<-|]; [|done].
    intros [post ->]%IH. by exists post.
Qed.

Variables (old new : string).

Lemma replace_from_skip (x b : string) :
  replace_from old new (String.length x) (x +:+ b) = replace_from old new 0 b.
Proof.
  induction x as [|c x IH]; [done|]. exact IH.
Qed.

(** The leftmost occurrence is rewritten and the scan goes on behind it. *)
Lemma replace_from_first (a b : string) :
  old ≠ ""%string ->
  (forall a1 a2, a = a1 +:+ a2 -> a2 ≠ ""%string ->
     String.prefix old (a2 +:+ old +:+ b) = false) ->
  replace_from old new 0 (a +:+ old +:+ b)
  = a +:+ new +:+ replace_from old new 0 b.
Proof.
  intros Hold. induction a as [|c a IH]; intros Hfirst.
  - change (""%string +:+ old +:+ b) with (old +:+ b).
    change (""%string +:+ new +:+ replace_from old new 0 b)
      with (new +:+ replace_from old new 0 b).
    destruct old as [|c0 o] eqn:Ho; [done|].
    rewrite <- Ho in *.
    assert (old +:+ b = String c0 (o +:+ b)) as Hs by (by rewrite Ho).
    rewrite Hs. cbn [replace_from]. rewrite <- Hs, prefix_app_true.
    rewrite decide_False by done. f_equal.
    replace (String.length old - 1)%nat with (String.length o)
      by (rewrite Ho; cbn; lia).
    apply replace_from_skip.
  - change (String c a +:+ old +:+ b) with (String c (a +:+ old +:+ b)).
    cbn [replace_from].
    pose proof (Hfirst ""%string (String c a) eq_refl ltac:(done)) as Hp.
    change (String c a +:+ old +:+ b) with (String c (a +:+ old +:+ b)) in Hp.
    rewrite Hp.
    change (String c a +:+ new +:+ replace_from old new 0 b)
      with (String c (a +:+ new +:+ replace_from old new 0 b)).
    f_equal. apply IH. intros a1 a2 -> Ha2.
    by apply (Hfirst (String c a1) a2).
Qed.

Lemma replace_from_absent (s : string) :
  old ≠ ""%string ->
  (forall pre post, s ≠ pre +:+ old +:+ post) ->
  replace_from old new 0 s = s.
Proof.
  intros Hold. induction s as [|c s IH]; intros Habs.
  - cbn. by rewrite decide_False.
  - cbn [replace_from].
    destruct (String.prefix old (String c s)) eqn:Hp.
    + apply prefix_true_app in Hp as [post Hp].
      by destruct (Habs ""%string post).
    + f_equal. apply IH. intros pre post ->.
      by apply (Habs (String c pre) post).
Qed.

End ReplaceFacts.

Lemma string_app_nil_r (s : string) : s +:+ "" = s.
Proof.
  induction s as [|c s IH]; [done|].
  change (String c s +:+ "") with (String c (s +:+ "")). by rewrite IH.
Qed.

Lemma occurs_spec (old s : string) :
  occurs old s = true <-> exists pre post, s = pre +:+ old +:+ post.
Proof.
  split.
  - induction s as [|c s IH]; cbn [occurs].
    + rewrite orb_false_r. intros [post ->]%prefix_true_app.
      by exists ""%string, post.
    + intros [[post ->]%prefix_true_app|Hs]%orb_true_iff.
      * by exists ""%string, post.
      * destruct (IH Hs) as (pre & post & ->). by exists (String c pre), post.
  - intros (pre & post & ->). induction pre as [|c pre IH].
    + change (""%string +:+ old +:+ post) with (old +:+ post).
      destruct (old +:+ post) eqn:Heq; cbn [occurs];
        rewrite <- Heq, prefix_app_true; done.
    + change (String c pre +:+ old +:+ post)
        with (String c (pre +:+ old +:+ post)).
      cbn [occurs]. rewrite IH. apply orb_true_r.
Qed.

Lemma prefix_dot_false (c : ascii) (s : string) :
  c ≠ "."%char -> String.prefix ".csv" (String c s) = false.
Proof.
  intros Hc. cbn [String.prefix].
  destruct (ascii_dec "." c) as [Heq|]; [|done].
  by destruct Hc.
Qed.

(** X11. How the output path is derived from [args.csv].  A path in which
    [.csv] does not occur is returned unchanged, so the enriched frame is
    written over the input file; in general the leftmost [.csv] is replaced
    by [_with_<attribute>.csv] and the rest of the path is treated the same
    way; in particular a path [<stem>.csv] whose stem has no dot becomes
    [<stem>_with_<attribute>.csv]. *)
Theorem output_path_of_csv_path (attribute : string) :
  (forall csv, occurs ".csv" csv = false ->
     str_replace ".csv" (with_suffix attribute) csv = csv)
  /\ (forall csv, occurs ".csv" csv = true
                  <-> exists pre post, csv = pre +:+ ".csv" +:+ post)
  /\ (forall a b,
        (forall a1 a2, a = a1 +:+ a2 -> a2 ≠ ""%string ->
           String.prefix ".csv" (a2 +:+ ".csv" +:+ b) = false) ->
        str_replace ".csv" (with_suffix attribute) (a +:+ ".csv" +:+ b)
        = a +:+ with_suffix attribute
          +:+ str_replace ".csv" (with_suffix attribute) b)
  /\ (forall stem, "."%char ∉ list_ascii_of_string stem ->
        str_replace ".csv" (with_suffix attribute) (stem +:+ ".csv")
        = stem +:+ with_suffix attribute).
Proof.
  split; [|split; [|split]].
  - intros csv Habs. apply replace_from_absent; [done|].
    intros pre post Heq.
    assert (occurs ".csv" csv = true) as Hocc
      by (apply occurs_spec; by exists pre, post).
    congruence.
  - intros csv. apply occurs_spec.
  - intros a b Hfirst. by apply replace_from_first.
  - intros stem Hdot. unfold str_replace.
    rewrite <- (string_app_nil_r (stem +:+ ".csv")).
    replace ((stem +:+ ".csv") +:+ "") with (stem +:+ ".csv" +:+ "")
      by (by rewrite !string_app_nil_r).
    rewrite replace_from_first; [by rewrite string_app_nil_r|done|].
    intros a1 a2 -> Ha2. destruct a2 as [|c a2]; [done|].
    apply prefix_dot_false. intros ->. apply Hdot.
    clear. induction a1 as [|c a1 IH].
    + apply elem_of_cons. by left.
    + change (String c a1 +:+ String "." a2)
        with (String c (a1 +:+ String "." a2)).
      apply elem_of_cons. by right.
Qed.

Lemma output_path_witness :
  str_replace ".csv" (with_suffix "model") "devices.tsv" = "devices.tsv"%string
  /\ str_replace ".csv" (with_suffix "model") "data/devices.csv"
     = "data/devices_with_model.csv"%string.
Proof.
  destruct (output_path_of_csv_path "model") as (Habsent & _ & _ & Hstem).
  split.
  - by apply Habsent.
  - apply (Hstem "data/devices"%string). by_compute.
Defined.

(** ** The enrichment run *)

Section EnrichFacts.

Context {Cell : Type} (ops : CellOps Cell) (client : Client).
Variables (csv attribute : string).

Lemma series_apply_Ok {A B} (f : A -> result B) (l : list A) (ys : list B) :
  series_apply f l = Ok ys <-> Forall2 (fun x y => f x = Ok y) l ys.
Proof.
  revert ys. induction l as [|x l IH]; intros ys; cbn [series_apply].
  - split; [intros [= <-]; constructor|by intros ->%Forall2_nil_inv_l].
  - split.
    + destruct (f x) as [y| |] eqn:Hx; [|done..]. cbn.
      destruct (series_apply f l) as [ys'| |] eqn:Hl; [|done..]. cbn.
      intros [= <-]. constructor; [done|]. by apply IH.
    + intros (y & ys' & Hx & Hl & ->)%Forall2_cons_inv_l.
      rewrite Hx. cbn. apply IH in Hl. by rewrite Hl.
Qed.

Lemma series_apply_fuel {A B} (f : A -> result B) (l : list A) :
  (forall x, f x ≠ OutOfFuel) -> series_apply f l ≠ OutOfFuel.
Proof.
  intros Hf. induction l as [|x l IH]; cbn [series_apply]; [done|].
  specialize (Hf x). destruct (f x); [|done..]. cbn.
  by destruct (series_apply f l).
Qed.

Lemma get_attribute_fuel mk mv gk : get_attribute client mk mv gk ≠ OutOfFuel.
Proof.
  unfold get_attribute. case_decide; [done|].
  destruct (client _ !! 0%nat) as [d|]; [|done]. cbn.
  destruct (dict_get "ATTRIBUTE"%string (latest d)) as [attrs|]; [|done]. cbn.
  by destruct (dict_get gk attrs).
Qed.

Lemma get_attribute_Ok_one mk mv gk v :
  get_attribute client mk mv gk = Ok v ->
  length (client (build_query mk mv gk)) = 1%nat.
Proof.
  unfold get_attribute. case_decide as Hlen; [done|]. intros _.
  destruct (decide (length (client (build_query mk mv gk)) = 1%nat)); done.
Qed.

(** After [dropna] every row has its value in the series, position by
    position. *)
Lemma series_dropna key (df : CsvFrame Cell) :
  Forall2 (fun row c => dict_get key row = Some c)
    (csv_rows (dropna key df)) (series key (dropna key df)).
Proof.
  unfold series, dropna. cbn [csv_rows].
  induction (csv_rows df) as [|row rows IH]; [constructor|].
  destruct (dict_get key row) as [c|] eqn:Hc.
  - rewrite filter_cons_True by (by rewrite Hc). cbn [omap list_omap].
    rewrite Hc. by constructor.
  - rewrite filter_cons_False by (rewrite Hc; by intros [? ?]). done.
Qed.

Lemma enrich_Ok_inv key (df : CsvFrame Cell) p out :
  head (csv_columns df) = Some key ->
  enrich ops client csv attribute df = Ok (p, out) ->
  exists values,
    Forall2 (fun c v => get_attribute client key (str_of ops c) attribute = Ok v)
      (series key (dropna key df)) values
    /\ p = str_replace ".csv" (with_suffix attribute) csv
    /\ out = set_column attribute (of_str ops <$> values) (dropna key df).
Proof.
  intros Hkey. unfold enrich. rewrite Hkey. cbn.
  destruct (series_apply _ _) as [values| |] eqn:Happly; [|done..].
  cbn. intros [= <- <-]. exists values. by apply series_apply_Ok in Happly.
Qed.

End EnrichFacts.

(** X12. When the enrichment hands a frame to [to_csv], the frame has the
    input rows whose match value is not missing, in order (rows with a missing
    match value are dropped), each with the requested attribute set to what
    [get_attribute] returned for that row's match value; the attribute column
    is a new last column unless the input already had it.  And whenever the
    lookup succeeds for every such row, a frame is written. *)
Theorem enrich_writes_resolved_rows {Cell : Type} (ops : CellOps Cell)
    (client : Client) (csv attribute key : string) (df : CsvFrame Cell) :
  head (csv_columns df) = Some key ->
  (forall p out,
     enrich ops client csv attribute df = Ok (p, out) ->
     p = str_replace ".csv" (with_suffix attribute) csv
     /\ csv_columns out
        = (if decide (attribute ∈ csv_columns df) then csv_columns df
           else csv_columns df ++ [attribute])
     /\ length (csv_rows out)
        = length (filter (fun row => is_Some (dict_get key row)) (csv_rows df))
     /\ forall i row,
          filter (fun row => is_Some (dict_get key row)) (csv_rows df) !! i
          = Some row ->
          exists c v,
            dict_get key row = Some c
            /\ get_attribute client key (str_of ops c) attribute = Ok v
            /\ csv_rows out !! i = Some (dict_set attribute (of_str ops v) row))
  /\ ((forall row c, row ∈ csv_rows df -> dict_get key row = Some c ->
         exists v, get_attribute client key (str_of ops c) attribute = Ok v) ->
      exists p out, enrich ops client csv attribute df = Ok (p, out)).
Proof.
  intros Hkey. split.
  - intros p out (values & Hvals & -> & ->)%(enrich_Ok_inv _ _ _ _ key); [|done].
    pose proof (series_dropna key df) as Hser.
    pose proof (Forall2_length _ _ _ Hser) as Hlen1.
    pose proof (Forall2_length _ _ _ Hvals) as Hlen2.
    split; [done|]. split; [done|]. split.
    { cbn [set_column csv_rows]. rewrite length_zip_with, length_fmap.
      cbn [dropna csv_rows] in *. lia. }
    intros i row Hrow.
    change (csv_rows (dropna key df) !! i = Some row) in Hrow.
    destruct (Forall2_lookup_l _ _ _ _ _ Hser Hrow) as (c & Hc & Hget).
    destruct (Forall2_lookup_l _ _ _ _ _ Hvals Hc) as (v & Hv & Hattr).
    exists c, v. split; [done|]. split; [done|].
    cbn [set_column csv_rows]. rewrite lookup_zip_with, Hrow. cbn.
    rewrite list_lookup_fmap, Hv. done.
  - intros Hall. unfold enrich. rewrite Hkey. cbn.
    destruct (series_apply _ _) as [values| |] eqn:Happly; [by eexists _, _| |].
    + exfalso.
      assert (exists values,
                Forall2 (fun c v => get_attribute client key (str_of ops c)
                                      attribute = Ok v)
                  (series key (dropna key df)) values) as [values Hvals].
      { pose proof (series_dropna key df) as Hser.
        assert (Forall (fun row => row ∈ csv_rows df) (csv_rows (dropna key df)))
          as Hin.
        { apply Forall_forall. intros row Hrow. cbn [dropna csv_rows] in Hrow.
          by apply list_elem_of_filter in Hrow as [_ ?]. }
        revert Hin. induction Hser as [|row c rows cs Hc Hser IH];
          intros Hin; [by exists []|].
        apply Forall_cons in Hin as [Hrow Hin].
        destruct (IH Hin) as [vs Hvs].
        destruct (Hall row c Hrow Hc) as [v Hv].
        exists (v :: vs). by constructor. }
      apply series_apply_Ok in Hvals.
      change (series_apply
                (fun c => get_attribute client key (str_of ops c) attribute)
                (series key (dropna key df)) = Raise e) in Happly.
      congruence.
    + exfalso. revert Happly. apply series_apply_fuel.
      intros c. apply get_attribute_fuel.
Qed.

Lemma enrich_witness :
  exists p out,
    enrich (mkCellOps id id) one_device "devices.csv" "model"
      (mkCsvFrame ["serialNumber"; "site"]%string
         [[("serialNumber", "SN-1"); ("site", "A")];
          [("site", "B")]]%string)
    = Ok (p, out)
    /\ p = "devices_with_model.csv"%string
    /\ length (csv_rows out) = 1%nat.
Proof.
  destruct (enrich_writes_resolved_rows (mkCellOps id id) one_device
              "devices.csv" "model" "serialNumber"
              (mkCsvFrame ["serialNumber"; "site"]%string
                 [[("serialNumber", "SN-1"); ("site", "A")];
                  [("site", "B")]]%string) eq_refl) as [Hok Hall].
  destruct Hall as (p & out & Hrun).
  { intros row c _ _. by exists "T1000"%string. }
  exists p, out. split; [exact Hrun|].
  destruct (Hok p out Hrun) as (-> & _ & Hlen & _).
  split; [reflexivity|exact Hlen].
Defined.

(** X13. One unresolved row stops the whole enrichment: if for some row
    with a match value the entity query returns a number of devices other than
    one, the run ends with an exception and no frame is handed to [to_csv],
    whatever the other rows are. *)
Theorem enrich_aborts_on_unresolved_row {Cell : Type} (ops : CellOps Cell)
    (client : Client) (csv attribute key : string) (df : CsvFrame Cell)
    (row : list (string * Cell)) (c : Cell) :
  head (csv_columns df) = Some key ->
  row ∈ csv_rows df -> dict_get key row = Some c ->
  length (client (build_query key (str_of ops c) attribute)) ≠ 1%nat ->
  exists e, enrich ops client csv attribute df = Raise e.
Proof.
  intros Hkey Hrow Hc Hcount.
  destruct (enrich ops client csv attribute df) as [[p out]|e|] eqn:Hrun.
  - exfalso.
    apply (enrich_Ok_inv _ _ _ _ key) in Hrun as (values & Hvals & _); [|done].
    pose proof (series_dropna key df) as Hser.
    assert (row ∈ csv_rows (dropna key df)) as Hkept.
    { cbn [dropna csv_rows]. apply list_elem_of_filter. by rewrite Hc. }
    apply list_elem_of_lookup in Hkept as [i Hi].
    destruct (Forall2_lookup_l _ _ _ _ _ Hser Hi) as (c' & Hc' & Hget).
    rewrite Hc in Hget. injection Hget as <-.
    destruct (Forall2_lookup_l _ _ _ _ _ Hvals Hc') as (v & _ & Hattr).
    by apply get_attribute_Ok_one in Hattr.
  - by exists e.
  - exfalso. revert Hrun. unfold enrich. rewrite Hkey. cbn.
    pose proof (series_apply_fuel
                  (fun c => get_attribute client key (str_of ops c) attribute)
                  (series key (dropna key df))
                  (fun c => get_attribute_fuel client _ _ _)) as Hfuel.
    by destruct (series_apply _ _).
Qed.

Lemma enrich_abort_witness :
  exists e,
    enrich (mkCellOps id id) no_device "devices.csv" "model"
      (mkCsvFrame ["serialNumber"]%string [[("serialNumber", "SN-9")]]%string)
    = Raise e.
Proof.
  apply (enrich_aborts_on_unresolved_row (mkCellOps id id) no_device
           "devices.csv" "model" "serialNumber" _
           [("serialNumber", "SN-9")]%string "SN-9"%string);
    [reflexivity|apply elem_of_cons; by left|reflexivity|cbn; lia].
Defined.

(** ** Columns never move *)

Lemma append_records_columns_extend (df : DataFrame) (records : Records) :
  exists extra,
    columns (append_records df records) = columns df ++ extra
    /\ Forall (fun k => k ∉ columns df) extra.
Proof.
  unfold append_records. case_decide.
  - cbn [concat columns]. unfold index_union. eexists. split; [done|].
    apply Forall_forall. by intros k [_ ?]%list_elem_of_difference.
  - exists []. by rewrite app_nil_r.
Qed.

Lemma accumulate_columns_extend (df : DataFrame) (batch_records : list Records) :
  exists extra,
    columns (accumulate df batch_records) = columns df ++ extra
    /\ Forall (fun k => k ∉ columns df) extra.
Proof.
  revert df. unfold accumulate.
  induction batch_records as [|records bs IH]; intros df; cbn [fold_left].
  - exists []. by rewrite app_nil_r.
  - destruct (append_records_columns_extend df records) as (e1 & He1 & Hn1).
    destruct (IH (append_records df records)) as (e2 & He2 & Hn2).
    exists (e1 ++ e2). rewrite He2, He1, <- app_assoc. split; [done|].
    apply Forall_app. split; [done|].
    eapply Forall_impl; [exact Hn2|]. intros k Hk Hin. apply Hk.
    rewrite He1. apply elem_of_app. by left.
Qed.

(** X14. The columns of a written table always begin with [ts] followed by
    the exported keys in device order; a key that the server returned without
    being asked for is appended behind them as a further column, never placed
    in between. *)
Theorem table_columns_begin_with_exported_keys fuel lib tb args st device st' :
  process_device fuel lib tb args st device = Ok st' ->
  st_files st' = st_files st
  \/ exists (name : string) (df : DataFrame) (extra : list string),
       st_files st' = st_files st ++ [(name, TableFile (output_format args) df)]
       /\ columns df
          = "ts"%string :: select_keys (keys args) (get_timeseries_keys tb device)
            ++ extra
       /\ Forall (fun k => k ≠ "ts"%string
                           /\ k ∉ select_keys (keys args)
                                    (get_timeseries_keys tb device)) extra.
Proof.
  intros (T0 & T1 & df & _ & _ & Hdf & [[_ ->]|(_ & df' & Hsort & _ & ->)])
    %process_device_Ok; [by left|].
  right. apply sort_values_spec in Hsort as (Hcols & _).
  apply device_table_Ok in Hdf as ->.
  destruct (accumulate_columns_extend
              (new_frame ("ts"%string
                          :: select_keys (keys args) (get_timeseries_keys tb device)))
              (fetch_records lib tb device
                 (select_keys (keys args) (get_timeseries_keys tb device))
                 <$> batches batch_window T0 T1)) as (extra & Hext & Hnin).
  eexists _, df', extra. split; [done|]. rewrite Hcols, Hext. split; [done|].
  eapply Forall_impl; [exact Hnin|]. intros k Hk. cbn [new_frame columns] in Hk.
  by apply not_elem_of_cons in Hk.
Qed.

Lemma table_columns_witness :
  exists (name : string) (df : DataFrame) (extra : list string),
    st_files (saved_state demo_lib demo_tb demo_args empty_state "dev1" jan1 jan2
                (mkDataFrame ["ts"; "temp"; "hum"]%string
                   [[("ts"%string, PInt 1672531200000); ("temp"%string, PInt 5)]]))
    = [(name, TableFile Csv df)]
    /\ columns df = "ts"%string :: ["temp"; "hum"]%string ++ extra.
Proof.
  destruct (table_columns_begin_with_exported_keys 1 demo_lib demo_tb demo_args
              empty_state "dev1" _ ltac:(vm_compute; reflexivity))
    as [Hnone|(name & df & extra & Hfiles & Hcols & _)].
  - vm_compute in Hnone. discriminate Hnone.
  - by exists name, df, extra.
Defined.
